(** * The weekly stablecoin report: a model of [stablecoin_weekly.py]

    The pipeline reads JSON from two providers, derives four metrics,
    compares them with the last persisted snapshot and posts a card to a
    webhook.  The model keeps the program's own shape: JSON values are an
    inductive type of Python values, [dict]s are insertion-ordered
    association lists, [float]s are binary64 numbers (the kernel's
    primitive floats), exceptions are values of a result type, and the
    [try]/[except] of [run_report] is a small state-and-exception monad.

    Part I holds the program, in the order of the source file.  Part II
    holds the definitions the statements are written with.  Part III
    holds the lemmas and the theorems. *)

From Stdlib Require Import ZArith List String Ascii Bool Floats Lia.
From Stdlib Require Import Permutation Sorted DecimalString.
Import ListNotations.

#[local] Set Warnings "-inexact-float,-register-all".
#[local] Open Scope list_scope.

(** * Part I: the program *)

(** ** Exceptions and results *)

(** The exceptions the modelled code can raise.  [WeeklyReportError] is the
    program's own class; [RequestError] stands for whatever
    [perform_request] lets through once its retries are exhausted.
    [UnicodeEncodeError] is what [print] and [write_text] raise on a text
    they cannot encode; it remembers the exception that was being handled
    when it was raised, as the traceback shows both. *)
Inductive exn : Type :=
| WeeklyReportError (msg : string)
| TypeError
| ValueError
| OverflowError
| AttributeError
| KeyError
| IndexError
| RecursionError
| UnicodeDecodeError
| UnicodeEncodeError (handled : option exn)
| RequestError (msg : string).

Inductive result (A : Type) : Type :=
| Ok (a : A)
| Raise (e : exn).

Arguments Ok {A} a.
Arguments Raise {A} e.

Definition bind {A B : Type} (r : result A) (k : A -> result B) : result B :=
  match r with
  | Ok a => k a
  | Raise e => Raise e
  end.

Notation "x <- r ;; k" := (bind r (fun x => k))
  (at level 61, r at next level, right associativity).

Notation "' pat <- r ;; k" := (bind r (fun x => match x with pat => k end))
  (at level 61, pat pattern, r at next level, right associativity).

Definition is_ok {A : Type} (r : result A) : bool :=
  match r with
  | Ok _ => true
  | Raise _ => false
  end.

(** ** Python values *)

(** What [json.loads] and [response.json()] produce.  Object keys are
    always [str]. *)
Inductive pyval : Type :=
| VNone
| VBool (b : bool)
| VInt (z : Z)
| VFloat (f : float)
| VStr (s : string)
| VList (items : list pyval)
| VDict (items : list (string * pyval)).

(** ** Strings *)

(** Text is modelled on the ASCII range.  A [string] all of whose
    characters are below 128 stands for the Python [str] with the same
    characters, and on such text [strip], [lower] and [upper] below are
    [str.strip], [str.lower] and [str.upper].  Python's methods follow
    Unicode beyond that range (more whitespace, more letters), which
    these definitions do not: the statements about text that comes from
    outside the program say with [ascii_text] that it is ASCII. *)
Definition is_ascii (c : ascii) : bool := (nat_of_ascii c <? 128)%nat.

Fixpoint ascii_text (s : string) : bool :=
  match s with
  | EmptyString => true
  | String c s' => is_ascii c && ascii_text s'
  end.

(** [str.isspace] on the ASCII range: tab, line feed, vertical tab, form
    feed, carriage return, the four separators 28..31, and space. *)
Definition is_space (c : ascii) : bool :=
  let n := nat_of_ascii c in
  ((9 <=? n) && (n <=? 13) || (28 <=? n) && (n <=? 32))%nat.

Fixpoint lstrip (s : string) : string :=
  match s with
  | EmptyString => EmptyString
  | String c s' => if is_space c then lstrip s' else s
  end.

Fixpoint rstrip (s : string) : string :=
  match s with
  | EmptyString => EmptyString
  | String c s' =>
      match rstrip s' with
      | EmptyString => if is_space c then EmptyString else String c EmptyString
      | r => String c r
      end
  end.

(** [s.strip()] *)
Definition strip (s : string) : string := rstrip (lstrip s).

Definition lower_ascii (c : ascii) : ascii :=
  let n := nat_of_ascii c in
  if ((65 <=? n) && (n <=? 90))%nat then ascii_of_nat (n + 32) else c.

Definition upper_ascii (c : ascii) : ascii :=
  let n := nat_of_ascii c in
  if ((97 <=? n) && (n <=? 122))%nat then ascii_of_nat (n - 32) else c.

Fixpoint map_string (f : ascii -> ascii) (s : string) : string :=
  match s with
  | EmptyString => EmptyString
  | String c s' => String (f c) (map_string f s')
  end.

(** [s.lower()] and [s.upper()] on ASCII text: only the letters A..Z and
    a..z change. *)
Definition lower (s : string) : string := map_string lower_ascii s.
Definition upper (s : string) : string := map_string upper_ascii s.

Definition is_empty (s : string) : bool :=
  match s with
  | EmptyString => true
  | String _ _ => false
  end.

(** ** Dictionaries *)

(** A Python [dict] keeps its keys in insertion order; assigning to a key
    that is present replaces the value where the key stands. *)
Section Dict.

Context {V : Type}.

Fixpoint dict_get (k : string) (d : list (string * V)) : option V :=
  match d with
  | [] => None
  | (k', v) :: d' => if String.eqb k k' then Some v else dict_get k d'
  end.

Definition dict_mem (k : string) (d : list (string * V)) : bool :=
  match dict_get k d with
  | Some _ => true
  | None => false
  end.

Fixpoint dict_set (k : string) (v : V) (d : list (string * V)) : list (string * V) :=
  match d with
  | [] => [(k, v)]
  | (k', v') :: d' =>
      if String.eqb k k' then (k', v) :: d' else (k', v') :: dict_set k v d'
  end.

Definition dict_keys (d : list (string * V)) : list string := map fst d.
Definition dict_values (d : list (string * V)) : list V := map snd d.

End Dict.

(** ** Built-in conversions *)

(** The parts of the Python runtime the program calls and whose full
    behaviour lies outside this file.  The theorems of Part III hold for
    all of them. *)
Record builtins : Type := {
  (** [float(s)] for a [str]; [None] when it raises [ValueError] *)
  str_to_float : string -> option float;
  (** [int(s)] for a [str]; [None] when it raises [ValueError] *)
  str_to_int : string -> option Z;
  (** [str(v)] for a value that is not a [str] *)
  str_of : pyval -> string;
  (** [sum(xs)] over floats: left-to-right addition up to CPython 3.11,
      compensated summation from 3.12 on *)
  float_sum : list float -> float
}.

(** Truth value of a Python value, as [or], [not] and [if] read it. *)
Definition truthy (v : pyval) : bool :=
  match v with
  | VNone => false
  | VBool b => b
  | VInt z => negb (z =? 0)%Z
  | VFloat f => negb (f =? 0)%float
  | VStr s => negb (is_empty s)
  | VList items => match items with [] => false | _ => true end
  | VDict items => match items with [] => false | _ => true end
  end.

(** [v or d] *)
Definition py_or (v d : pyval) : pyval := if truthy v then v else d.

Definition isinstance_dict (v : pyval) : bool :=
  match v with
  | VDict _ => true
  | _ => false
  end.

(** [v.get(k)]: only a [dict] has the method. *)
Definition py_get (v : pyval) (k : string) : result pyval :=
  match v with
  | VDict items =>
      Ok (match dict_get k items with Some x => x | None => VNone end)
  | _ => Raise AttributeError
  end.

(** [float(z)] for an [int]: the nearest binary64 number, ties to even;
    [OverflowError] when that lies beyond the largest finite one. *)
Definition int_to_float (z : Z) : result float :=
  let f := SF2Prim (binary_normalize prec emax z 0 false) in
  if is_infinity f then Raise OverflowError else Ok f.

Section WithBuiltins.

Variable B : builtins.

(** [float(v)] *)
Definition py_float (v : pyval) : result float :=
  match v with
  | VNone => Raise TypeError
  | VBool b => Ok (if b then 1 else 0)%float
  | VInt z => int_to_float z
  | VFloat f => Ok f
  | VStr s =>
      match str_to_float B s with
      | Some f => Ok f
      | None => Raise ValueError
      end
  | VList _ => Raise TypeError
  | VDict _ => Raise TypeError
  end.

(** [str(v)] *)
Definition py_str (v : pyval) : string :=
  match v with
  | VStr s => s
  | _ => str_of B v
  end.

(** ** Supply side: DefiLlama *)

(** [get_pegged_usd_circulating]: the [try] catches [TypeError] and
    [ValueError] only. *)
Definition get_pegged_usd_circulating (asset : pyval) : result float :=
  circulating <- py_get asset "circulating" ;;
  value <- (if isinstance_dict circulating
            then py_get circulating "peggedUSD"
            else Ok circulating) ;;
  match py_float (py_or value (VInt 0)) with
  | Ok f => Ok f
  | Raise TypeError => Ok 0%float
  | Raise ValueError => Ok 0%float
  | Raise e => Raise e
  end.

(** [asset.get("pegType") == "peggedUSD"]; the loop skips the asset
    otherwise. *)
Definition peg_is_usd (peg : pyval) : bool :=
  match peg with
  | VStr s => String.eqb s "peggedUSD"
  | _ => false
  end.

(** The first loop of [build_top20_symbols_and_usdc_supply], with its two
    accumulators. *)
Fixpoint collect_usd_assets (pegged_assets : list pyval)
  (usd_assets : list (string * float)) (usdc_candidates : list float)
  : result (list (string * float) * list float) :=
  match pegged_assets with
  | [] => Ok (usd_assets, usdc_candidates)
  | asset :: rest =>
      peg <- py_get asset "pegType" ;;
      if negb (peg_is_usd peg) then
        collect_usd_assets rest usd_assets usdc_candidates
      else
        raw <- py_get asset "symbol" ;;
        let symbol := strip (py_str (py_or raw (VStr ""))) in
        if is_empty symbol then
          collect_usd_assets rest usd_assets usdc_candidates
        else
          circulating <- get_pegged_usd_circulating asset ;;
          collect_usd_assets rest
            (usd_assets ++ [(symbol, circulating)])
            (if String.eqb (upper symbol) "USDC"
             then usdc_candidates ++ [circulating]
             else usdc_candidates)
  end.

(** [sorted(usd_assets, key=lambda item: item[1], reverse=True)]: a stable
    sort, largest key first; items with equal keys keep their order.  An
    item goes behind those with a strictly larger key.  When no key is
    NaN the keys are totally ordered and this is the list that every
    stable sort returns, CPython's included.  With a NaN among the keys
    the comparisons are not an order and what CPython returns depends on
    the merge strategy of its sort, which is not modelled: the statements
    about the sorted list say that no key is NaN. *)
Fixpoint insert_desc (x : string * float) (l : list (string * float))
  : list (string * float) :=
  match l with
  | [] => [x]
  | y :: l' =>
      if (snd x <? snd y)%float then y :: insert_desc x l' else x :: y :: l'
  end.

Definition sorted_desc (l : list (string * float)) : list (string * float) :=
  fold_right insert_desc [] l.

Definition set_mem (s : string) (seen : list string) : bool :=
  existsb (String.eqb s) seen.

(** The second loop: walk the sorted assets, skip symbols already seen,
    stop at twenty. *)
Fixpoint top_symbols_loop (sorted_assets : list (string * float))
  (top_symbols : list string) (seen_symbols : list string) : list string :=
  match sorted_assets with
  | [] => top_symbols
  | (symbol, _) :: rest =>
      let normalized_symbol := lower symbol in
      if set_mem normalized_symbol seen_symbols then
        top_symbols_loop rest top_symbols seen_symbols
      else
        let top_symbols' := top_symbols ++ [normalized_symbol] in
        if (List.length top_symbols' =? 20)%nat then top_symbols'
        else top_symbols_loop rest top_symbols' (normalized_symbol :: seen_symbols)
  end.

(** [max(xs)]: the first item no later item exceeds. *)
Definition py_max (xs : list float) : result float :=
  match xs with
  | [] => Raise ValueError
  | x :: rest =>
      Ok (fold_left (fun best item => if (best <? item)%float then item else best)
            rest x)
  end.

Definition build_top20_symbols_and_usdc_supply (pegged_assets : list pyval)
  : result (list string * float) :=
  '(usd_assets, usdc_candidates) <- collect_usd_assets pegged_assets [] [] ;;
  match usd_assets with
  | [] => Raise (WeeklyReportError "No peggedUSD assets found in DefiLlama response")
  | _ :: _ =>
      match usdc_candidates with
      | [] => Raise (WeeklyReportError "USDC supply not found in DefiLlama stablecoins list")
      | _ :: _ =>
          let sorted_assets := sorted_desc usd_assets in
          let top_symbols := top_symbols_loop sorted_assets [] [] in
          usdc_supply <- py_max usdc_candidates ;;
          Ok (top_symbols, usdc_supply)
      end
  end.

End WithBuiltins.

(** A call that waits for the provider has a third way to end: the
    responses handed to the model are used up while the code is still
    asking. *)
Inductive outcome (A : Type) : Type :=
| Returns (a : A)
| Raises (e : exn)
| Blocked.

Arguments Returns {A} a.
Arguments Raises {A} e.
Arguments Blocked {A}.

Definition outcome_of {A : Type} (r : result A) : outcome A :=
  match r with
  | Ok a => Returns a
  | Raise e => Raises e
  end.

Section WithBuiltinsDune.

Variable B : builtins.

(** [chart_points[-1]] *)
Definition last_item (items : list pyval) : result pyval :=
  match items with
  | [] => Raise IndexError
  | _ :: _ => Ok (last items VNone)
  end.

(** [get_total_supply_usd]: the last chart point's [peggedUSD] total, which
    must be positive. *)
Definition get_total_supply_usd (chart_points : list pyval) : result float :=
  latest_point <- last_item chart_points ;;
  total_circulating <- py_get latest_point "totalCirculating" ;;
  if negb (isinstance_dict total_circulating) then
    Raise (WeeklyReportError "DefiLlama chart is missing totalCirculating data")
  else
    value <- py_get total_circulating "peggedUSD" ;;
    match value with
    | VNone => Raise (WeeklyReportError "DefiLlama chart is missing peggedUSD total supply")
    | _ =>
        total_supply_usd <- py_float B value ;;
        if (total_supply_usd <=? 0)%float then
          Raise (WeeklyReportError "DefiLlama total supply is not positive")
        else Ok total_supply_usd
    end.

(** ** Volume side: Dune *)

(** [int(f)] for a [float]: truncation towards zero. *)
Definition float_to_int (f : float) : result Z :=
  match Prim2SF f with
  | S754_nan => Raise ValueError
  | S754_infinity _ => Raise OverflowError
  | S754_zero _ => Ok 0%Z
  | S754_finite s m e =>
      let magnitude := Z.shiftl (Zpos m) e in
      Ok (if s then (- magnitude)%Z else magnitude)
  end.

(** [int(v)] *)
Definition py_int (v : pyval) : result Z :=
  match v with
  | VNone => Raise TypeError
  | VBool b => Ok (if b then 1 else 0)%Z
  | VInt z => Ok z
  | VFloat f => float_to_int f
  | VStr s =>
      match str_to_int B s with
      | Some z => Ok z
      | None => Raise ValueError
      end
  | VList _ => Raise TypeError
  | VDict _ => Raise TypeError
  end.

(** One turn of the [while True] of [fetch_dune_result_rows], up to the
    test of the cursor: the mapping-shaped rows of the page, and
    [next_offset] as the payload gives it. *)
Definition read_result_page (result_payload : pyval) : result (list pyval * pyval) :=
  result <- py_get result_payload "result" ;;
  if negb (isinstance_dict result) then
    Raise (WeeklyReportError "Dune result payload is missing result rows")
  else
    page_rows <- py_get result "rows" ;;
    match page_rows with
    | VList items =>
        next_offset <- py_get result_payload "next_offset" ;;
        Ok (filter isinstance_dict items, next_offset)
    | _ => Raise (WeeklyReportError "Dune result payload has invalid rows structure")
    end.

Definition check_rows (rows : list pyval) : result (list pyval) :=
  match rows with
  | [] => Raise (WeeklyReportError "Dune query returned no rows")
  | _ :: _ => Ok rows
  end.

(** The loop itself.  [responses] are what [request_json] gives for the
    successive page requests; the second component lists the offsets the
    loop asked for, in order. *)
Fixpoint fetch_loop (responses : list (result pyval)) (rows : list pyval)
  (offset : Z) : outcome (list pyval) * list Z :=
  match responses with
  | [] => (Blocked, [offset])
  | response :: later =>
      match (result_payload <- response ;; read_result_page result_payload) with
      | Raise e => (Raises e, [offset])
      | Ok (page_rows, next_offset) =>
          let rows' := rows ++ page_rows in
          match next_offset with
          | VNone => (outcome_of (check_rows rows'), [offset])
          | _ =>
              match py_int next_offset with
              | Raise e => (Raises e, [offset])
              | Ok offset' =>
                  let '(end_, asked) := fetch_loop later rows' offset' in
                  (end_, offset :: asked)
              end
          end
      end
  end.

Definition fetch_dune_result_rows (responses : list (result pyval))
  : outcome (list pyval) * list Z :=
  fetch_loop responses [] 0%Z.

Definition SYMBOL_COLUMN_CANDIDATES : list string :=
  ["symbol"; "token_symbol"; "asset"; "stablecoin"; "project"]%string.

Definition VOLUME_COLUMN_CANDIDATES : list string :=
  ["volume_7d_usd"; "volume_usd_7d"; "transfer_volume_usd"; "volume_usd";
   "amount_usd"; "volume"]%string.

(** [{str(key).lower(): value for key, value in row.items()}] *)
Definition lowered_row (items : list (string * pyval)) : list (string * pyval) :=
  fold_left (fun acc kv => dict_set (lower (fst kv)) (snd kv) acc) items [].

Fixpoint first_candidate (candidates : list string)
  (lowered : list (string * pyval)) : pyval :=
  match candidates with
  | [] => VNone
  | candidate :: others =>
      match dict_get candidate lowered with
      | Some v => v
      | None => first_candidate others lowered
      end
  end.

Definition get_row_value (row : pyval) (candidates : list string) : result pyval :=
  match row with
  | VDict items => Ok (first_candidate candidates (lowered_row items))
  | _ => Raise AttributeError
  end.

(** The body of the loop of [extract_dune_symbol_totals] up to the update
    of [totals]: what a row contributes, [None] when the row is skipped. *)
Definition row_volume (row : pyval) : result (option (string * float)) :=
  raw_symbol <- get_row_value row SYMBOL_COLUMN_CANDIDATES ;;
  match raw_symbol with
  | VNone => Ok None
  | _ =>
      let symbol := lower (strip (py_str B raw_symbol)) in
      if is_empty symbol then Ok None
      else
        raw_volume <- get_row_value row VOLUME_COLUMN_CANDIDATES ;;
        match raw_volume with
        | VNone => Ok None
        | _ =>
            match py_float B raw_volume with
            | Ok volume => Ok (Some (symbol, volume))
            | Raise TypeError => Ok None
            | Raise ValueError => Ok None
            | Raise e => Raise e
            end
        end
  end.

(** [totals[symbol] = totals.get(symbol, 0.0) + volume] *)
Definition add_volume (totals : list (string * float)) (symbol : string)
  (volume : float) : list (string * float) :=
  let so_far := match dict_get symbol totals with Some t => t | None => 0%float end in
  dict_set symbol (so_far + volume)%float totals.

Fixpoint accumulate_totals (rows : list pyval) (totals : list (string * float))
  : result (list (string * float)) :=
  match rows with
  | [] => Ok totals
  | row :: rest =>
      contribution <- row_volume row ;;
      match contribution with
      | None => accumulate_totals rest totals
      | Some (symbol, volume) =>
          accumulate_totals rest (add_volume totals symbol volume)
      end
  end.

Definition extract_dune_symbol_totals (rows : list pyval)
  : result (list (string * float)) :=
  totals <- accumulate_totals rows [] ;;
  match totals with
  | [] =>
      Raise (WeeklyReportError
        "Dune query rows did not contain usable symbol and volume columns. Expected columns like symbol + volume_7d_usd.")
  | _ :: _ => Ok totals
  end.

(** The loop of [compute_dune_share]. *)
Fixpoint partition_symbols (dune_symbol_totals : list (string * float))
  (symbols : list string) (missing_symbols : list string)
  (denominator_totals : list (string * float))
  : list string * list (string * float) :=
  match symbols with
  | [] => (missing_symbols, denominator_totals)
  | symbol :: rest =>
      match dict_get symbol dune_symbol_totals with
      | None =>
          partition_symbols dune_symbol_totals rest
            (missing_symbols ++ [symbol]) denominator_totals
      | Some total =>
          partition_symbols dune_symbol_totals rest
            missing_symbols (dict_set symbol total denominator_totals)
      end
  end.

Definition compute_dune_share (dune_symbol_totals : list (string * float))
  (symbols : list string)
  : result (option float * list string * list (string * float)) :=
  let '(missing_symbols, denominator_totals) :=
    partition_symbols dune_symbol_totals symbols [] [] in
  match dict_get "usdc" denominator_totals with
  | None => Ok (None, missing_symbols, denominator_totals)
  | Some usdc_total =>
      let denominator := float_sum B (dict_values denominator_totals) in
      if (denominator <=? 0)%float then
        Raise (WeeklyReportError "Dune denominator volume is zero")
      else
        Ok (Some (usdc_total / denominator)%float, missing_symbols, denominator_totals)
  end.

End WithBuiltinsDune.

(** ** History store *)

Definition MAX_HISTORY_ITEMS : nat := 52.

Definition HISTORY_PATH : string := "data/weekly_history.json".

(** The history file, by what [read_text], [raw_text.strip()] and
    [json.loads] make of it: nothing but blanks; text on which
    [json.loads] raises [JSONDecodeError]; a file on which [read_text] or
    [json.loads] raises another exception (bytes that are no UTF-8 give
    [UnicodeDecodeError], an integer of more than 4300 digits gives
    [ValueError], nesting that is too deep gives [RecursionError]); or
    the value the text decodes to.  A file holds [None] when the path
    does not exist. *)
Inductive document : Type :=
| Blank
| NotJson
| Unreadable (e : exn)
| Json (v : pyval).

(** [load_history]: only [JSONDecodeError] is caught and wrapped;
    [read_text] stands outside the [try]. *)
Definition load_history (file : option document) : result (list pyval) :=
  match file with
  | None => Ok []
  | Some Blank => Ok []
  | Some NotJson =>
      Raise (WeeklyReportError (String.append "Invalid JSON in " HISTORY_PATH))
  | Some (Unreadable e) => Raise e
  | Some (Json (VList data)) => Ok (filter isinstance_dict data)
  | Some (Json _) =>
      Raise (WeeklyReportError
               (String.append "History file must contain a JSON array: " HISTORY_PATH))
  end.

(** [history[-MAX_HISTORY_ITEMS:]] *)
Definition trimmed_history (history : list pyval) : list pyval :=
  skipn (List.length history - MAX_HISTORY_ITEMS) history.

(** [save_history], when [write_text] succeeds: the file then holds the
    JSON text of the trimmed list.  [write_history] below is the write
    itself, which can fail. *)
Definition save_history (history : list pyval) : option document :=
  Some (Json (VList (trimmed_history history))).

Definition get_previous_metrics (history : list pyval) : result pyval :=
  match history with
  | [] => Ok VNone
  | _ :: _ =>
      metrics <- py_get (last history VNone) "metrics" ;;
      if isinstance_dict metrics then Ok metrics else Ok VNone
  end.

(** ** Formatting of week-over-week changes *)

Inductive metric_kind : Type :=
| Currency
| Share.

Definition METRIC_SPECS : list (string * metric_kind) :=
  [("total_supply_usd", Currency);
   ("usdc_supply_usd", Currency);
   ("usdc_supply_share", Share);
   ("usdc_transfer_volume_share_7d", Share)]%string.

(** [n / d] rounded to the nearest integer, ties to the even one
    ([0 <= n], [0 < d]). *)
Definition round_half_even (n d : Z) : Z :=
  let q := (n / d)%Z in
  match (2 * (n mod d) ?= d)%Z with
  | Lt => q
  | Gt => (q + 1)%Z
  | Eq => if Z.even q then q else (q + 1)%Z
  end.

(** The number of hundredths nearest to [m * 2 ^ e]. *)
Definition hundredths (m : positive) (e : Z) : Z :=
  if (0 <=? e)%Z then (Zpos m * 2 ^ e * 100)%Z
  else round_half_even (Zpos m * 100) (2 ^ (- e)).

Definition decimal (n : Z) : string := NilZero.string_of_int (Z.to_int n).

Definition two_digits (n : Z) : string :=
  if (n <? 10)%Z then String.append "0" (decimal n) else decimal n.

(** [f"{x:+.2f}"]: the exact value of [x], correctly rounded to two
    decimals, with its sign always written. *)
Definition format_signed_2f (x : float) : string :=
  match Prim2SF x with
  | S754_nan => "+nan"
  | S754_infinity s => if s then "-inf" else "+inf"
  | S754_zero s => if s then "-0.00" else "+0.00"
  | S754_finite s m e =>
      let h := hundredths m e in
      String.append (if s then "-" else "+")
        (String.append (decimal (h / 100))
           (String.append "." (two_digits (h mod 100))))
  end%string.

(** [f"{x:+.2%}"]: the float is multiplied by 100 first. *)
Definition format_signed_2pct (x : float) : string :=
  String.append (format_signed_2f (x * 100)%float) "%".

Definition format_wow (metric_name : string) (current previous : option float)
  : result string :=
  match current, previous with
  | Some current, Some previous =>
      match dict_get metric_name METRIC_SPECS with
      | None => Raise KeyError
      | Some Share =>
          let delta_pp := ((current - previous) * 100)%float in
          Ok (String.append (format_signed_2f delta_pp) "pp")
      | Some Currency =>
          if (previous =? 0)%float then Ok "N/A"%string
          else
            let change_ratio := ((current - previous) / previous)%float in
            Ok (format_signed_2pct change_ratio)
      end
  | _, _ => Ok "N/A"%string
  end.

Section WithBuiltinsReport.

Variable B : builtins.

(** The previous value of one metric, as the loop of [build_wow_map] reads
    it. *)
Definition previous_value (previous_metrics : pyval) (metric_name : string)
  : result (option float) :=
  match previous_metrics with
  | VDict items =>
      match dict_get metric_name items with
      | None => Ok None
      | Some VNone => Ok None
      | Some raw_previous =>
          match py_float B raw_previous with
          | Ok f => Ok (Some f)
          | Raise TypeError => Ok None
          | Raise ValueError => Ok None
          | Raise e => Raise e
          end
      end
  | _ => Ok None
  end.

(** [current_metrics.get(metric_name)] *)
Definition metric_get (metrics : list (string * option float)) (metric_name : string)
  : option float :=
  match dict_get metric_name metrics with
  | Some v => v
  | None => None
  end.

Fixpoint wow_loop (names : list string) (current_metrics : list (string * option float))
  (previous_metrics : pyval) (wow_map : list (string * string))
  : result (list (string * string)) :=
  match names with
  | [] => Ok wow_map
  | metric_name :: rest =>
      previous <- previous_value previous_metrics metric_name ;;
      text <- format_wow metric_name (metric_get current_metrics metric_name) previous ;;
      wow_loop rest current_metrics previous_metrics (dict_set metric_name text wow_map)
  end.

Definition build_wow_map (current_metrics : list (string * option float))
  (previous_metrics : pyval) : result (list (string * string)) :=
  wow_loop (dict_keys METRIC_SPECS) current_metrics previous_metrics [].

End WithBuiltinsReport.

(** ** Requests with retries *)

(** What one call of the body of [perform_request] can raise: the
    [HTTPError] of [raise_for_status], with the status code of its
    response when it carries one, a [ConnectionError], a [Timeout], or
    any other exception. *)
Inductive request_error : Type :=
| HTTPError (status_code : option Z)
| ConnectionError
| Timeout
| OtherError (message : string).

Definition should_retry_request_error (exc : request_error) : bool :=
  match exc with
  | HTTPError status_code =>
      match status_code with
      | Some code => (code =? 429)%Z || (500 <=? code)%Z
      | None => false
      end
  | ConnectionError => true
  | Timeout => true
  | OtherError _ => false
  end.

(** How a call of the body ends. *)
Inductive attempt (A : Type) : Type :=
| Responds (response : A)
| Fails (exc : request_error).

Arguments Responds {A} response.
Arguments Fails {A} exc.

(** [stop_after_attempt(3)] *)
Definition MAX_ATTEMPTS : nat := 3.

(** The loop of the [retry] decorator: [call n] is how the [n]-th call of
    the body ends.  An exception that [should_retry_request_error]
    refuses is raised at once; one it accepts is raised only when no
    attempt is left ([reraise=True]).  The result comes with the number
    of calls made. *)
Fixpoint retry_loop {A : Type} (attempts_left : nat) (attempt_number : nat)
  (call : nat -> attempt A) : attempt A * nat :=
  match call attempt_number with
  | Responds response => (Responds response, attempt_number)
  | Fails exc =>
      if should_retry_request_error exc then
        match attempts_left with
        | O => (Fails exc, attempt_number)
        | S attempts_left' => retry_loop attempts_left' (S attempt_number) call
        end
      else (Fails exc, attempt_number)
  end.

Definition perform_request {A : Type} (call : nat -> attempt A) : attempt A * nat :=
  retry_loop (MAX_ATTEMPTS - 1) 1 call.

(** ** The run *)

(** What a run meets outside the process: the clock, the environment, the
    answers of [request_json] to each request (after the retries of
    [perform_request]), the webhook, the history file, and the standard
    output. *)
Record world : Type := {
  (** [should_run_now(get_report_now(), is_force_run_enabled())] *)
  should_run : bool;
  (** [run_time_report_tz.isoformat(timespec="seconds")] *)
  run_time_iso : string;
  (** [get_report_window(run_time_report_tz)], both dates in ISO form *)
  window_iso : string * string;
  (** [os.getenv(name, "")] *)
  getenv : string -> string;
  stablecoins_response : result pyval;
  chart_response : result pyval;
  execute_response : result pyval;
  status_responses : list (result pyval);
  results_responses : list (result pyval);
  (** for each call of [request_feishu], in order: how the [n]-th attempt
      of [perform_request] to POST the payload ends, with the body of the
      response as [response.json()] decodes it, [None] when it raises
      [ValueError] *)
  webhook_responses : list (nat -> attempt (option pyval));
  (** [str(exc)] of an error that [perform_request] lets through *)
  request_error_text : request_error -> string;
  stored_history : option document;
  (** whether [write_text] can encode the JSON text of a history; it
      cannot when a string in it holds a lone surrogate *)
  history_encodable : list pyval -> bool;
  (** whether [print] can encode a text that is not ASCII *)
  stdout_accepts : string -> bool
}.

(** The two reports of the composer, by the data they are built from. *)
Inductive report : Type :=
| SuccessReport (window : string * string)
    (metrics : list (string * option float)) (wow_map : list (string * string))
    (missing_symbols : list string)
| FailureReport (error : exn) (partial_metrics : list (string * option float))
    (window : option (string * string)) (missing_symbols : list string).

(** A report goes out as a card or as its plain-text rendering. *)
Inductive payload : Type :=
| Card (r : report)
| Text (r : report).

(** What [run_report] can change: its local variables that the handler
    reads, the history file, and the webhook.  [posted] lists the
    payloads that [request_feishu] was called with, one entry for each
    call; [wire] lists the POST requests that went out, one entry for
    each attempt of [perform_request]. *)
Record run_state : Type := {
  partial_metrics : list (string * option float);
  missing_symbols : list string;
  report_window : option (string * string);
  webhook_url : option string;
  history_file : option document;
  webhook_pending : list (nat -> attempt (option pyval));
  posted : list payload;
  wire : list payload
}.

Definition M (A : Type) : Type := run_state -> outcome A * run_state.

Definition ret {A : Type} (a : A) : M A := fun s => (Returns a, s).

Definition bindM {A C : Type} (m : M A) (k : A -> M C) : M C :=
  fun s =>
    match m s with
    | (Returns a, s') => k a s'
    | (Raises e, s') => (Raises e, s')
    | (Blocked, s') => (Blocked, s')
    end.

Notation "x <~ m ;; k" := (bindM m (fun x => k))
  (at level 61, m at next level, right associativity).

Notation "' pat <~ m ;; k" := (bindM m (fun x => match x with pat => k end))
  (at level 61, pat pattern, m at next level, right associativity).

Definition lift {A : Type} (r : result A) : M A := fun s => (outcome_of r, s).

Definition lift_outcome {A : Type} (o : outcome A) : M A := fun s => (o, s).

Definition modify (f : run_state -> run_state) : M unit :=
  fun s => (Returns tt, f s).

Definition gets {A : Type} (f : run_state -> A) : M A :=
  fun s => (Returns (f s), s).

(** [try: m except Exception as exc: handler(exc)] *)
Definition try_except {A : Type} (m : M A) (handler : exn -> M A) : M A :=
  fun s =>
    match m s with
    | (Raises e, s') => handler e s'
    | other => other
    end.

Definition set_metric (name : string) (value : option float) (s : run_state)
  : run_state :=
  {| partial_metrics := dict_set name value (partial_metrics s);
     missing_symbols := missing_symbols s;
     report_window := report_window s;
     webhook_url := webhook_url s;
     history_file := history_file s;
     webhook_pending := webhook_pending s;
     posted := posted s;
     wire := wire s |}.

Definition set_missing_symbols (symbols : list string) (s : run_state) : run_state :=
  {| partial_metrics := partial_metrics s;
     missing_symbols := symbols;
     report_window := report_window s;
     webhook_url := webhook_url s;
     history_file := history_file s;
     webhook_pending := webhook_pending s;
     posted := posted s;
     wire := wire s |}.

Definition set_report_window (window : string * string) (s : run_state) : run_state :=
  {| partial_metrics := partial_metrics s;
     missing_symbols := missing_symbols s;
     report_window := Some window;
     webhook_url := webhook_url s;
     history_file := history_file s;
     webhook_pending := webhook_pending s;
     posted := posted s;
     wire := wire s |}.

Definition set_webhook_url (url : string) (s : run_state) : run_state :=
  {| partial_metrics := partial_metrics s;
     missing_symbols := missing_symbols s;
     report_window := report_window s;
     webhook_url := Some url;
     history_file := history_file s;
     webhook_pending := webhook_pending s;
     posted := posted s;
     wire := wire s |}.

Definition set_history_file (file : option document) (s : run_state) : run_state :=
  {| partial_metrics := partial_metrics s;
     missing_symbols := missing_symbols s;
     report_window := report_window s;
     webhook_url := webhook_url s;
     history_file := file;
     webhook_pending := webhook_pending s;
     posted := posted s;
     wire := wire s |}.

(** The state after a call of [request_feishu] with payload [p] that
    took [attempts] POST requests and left the answers [pending]. *)
Definition sent (p : payload) (attempts : nat)
  (pending : list (nat -> attempt (option pyval))) (s : run_state) : run_state :=
  {| partial_metrics := partial_metrics s;
     missing_symbols := missing_symbols s;
     report_window := report_window s;
     webhook_url := webhook_url s;
     history_file := history_file s;
     webhook_pending := pending;
     posted := posted s ++ [p];
     wire := wire s ++ repeat p attempts |}.

(** [print] of a log line.  ASCII text always prints. *)
Definition printable (w : world) (text : string) : bool :=
  ascii_text text || stdout_accepts w text.

(** Whether [str(exc)] prints.  The messages of the built-in exceptions
    are made of type names and of [repr]s, in which a character that
    cannot be printed is escaped. *)
Definition error_printable (w : world) (exc : exn) : bool :=
  match exc with
  | WeeklyReportError msg => printable w msg
  | RequestError msg => printable w msg
  | _ => true
  end.

(** Whether [traceback.format_exc()] prints: the traceback of an error
    shows the error that was being handled when it was raised. *)
Fixpoint traceback_printable (w : world) (exc : exn) : bool :=
  match exc with
  | UnicodeEncodeError (Some handled) => traceback_printable w handled
  | _ => error_printable w exc
  end.

(** [log(message)] for a message that prints or does not, while [handled]
    is being handled.  The log lines whose message is a constant of the
    program, and the line with the metrics snapshot, always print and are
    left out of the model. *)
Definition log (prints : bool) (handled : exn) : M unit :=
  fun s =>
    if prints then (Returns tt, s)
    else (Raises (UnicodeEncodeError (Some handled)), s).

(** [response_code not in (0, "0", None)], negated. *)
Definition code_accepted (response_code : pyval) : bool :=
  match response_code with
  | VNone => true
  | VBool b => negb b
  | VInt z => (z =? 0)%Z
  | VFloat f => (f =? 0)%float
  | VStr s => String.eqb s "0"
  | VList _ => false
  | VDict _ => false
  end.

(** [d.get(k, default)] on a [dict] *)
Definition dict_get_default (k : string) (default : pyval)
  (items : list (string * pyval)) : pyval :=
  match dict_get k items with
  | Some v => v
  | None => default
  end.

Section WithBuiltinsRun.

Variable B : builtins.

(** What [request_feishu] makes of the decoded answer. *)
Definition check_feishu (data : pyval) : result pyval :=
  match data with
  | VDict items =>
      let response_code :=
        dict_get_default "code" (dict_get_default "StatusCode" (VInt 0) items) items in
      if code_accepted response_code then Ok data
      else
        let message :=
          py_or (py_or (dict_get_default "msg" VNone items)
                   (dict_get_default "StatusMessage" VNone items))
            (VStr "unknown error") in
        Raise (WeeklyReportError
                 (String.append "Feishu webhook rejected request: " (py_str B message)))
  | _ => Raise AttributeError
  end.

(** [request_feishu] after [perform_request]: an error of the request
    goes through, a body that is no JSON is a [WeeklyReportError], and
    the decoded answer is checked. *)
Definition read_feishu_response (w : world) (response : attempt (option pyval))
  : result pyval :=
  match response with
  | Fails exc => Raise (RequestError (request_error_text w exc))
  | Responds None =>
      Raise (WeeklyReportError "Feishu webhook returned non-JSON response")
  | Responds (Some data) => check_feishu data
  end.

Definition request_feishu (w : world) (p : payload) : M pyval :=
  fun s =>
    match webhook_pending s with
    | [] => (Blocked, sent p 1 [] s)
    | call :: later =>
        let '(response, attempts) := perform_request call in
        (outcome_of (read_feishu_response w response), sent p attempts later s)
    end.

(** [send_feishu_message]: the [log] of the handler comes before the
    second request. *)
Definition send_feishu_message (w : world) (r : report) : M unit :=
  try_except
    (_ <~ request_feishu w (Card r) ;; ret tt)
    (fun primary_error =>
       _ <~ log (error_printable w primary_error) primary_error ;;
       _ <~ request_feishu w (Text r) ;;
       ret tt).

Definition notify_failure (w : world) (error : exn) : M unit :=
  url <~ gets webhook_url ;;
  match url with
  | None => ret tt
  | Some _ =>
      metrics <~ gets partial_metrics ;;
      window <~ gets report_window ;;
      missing <~ gets missing_symbols ;;
      send_feishu_message w (FailureReport error metrics window missing)
  end.

(** [os.getenv(name, "").strip()], then [get_required_env] and
    [get_optional_env]. *)
Definition env_value (w : world) (name : string) : string := strip (getenv w name).

Definition get_required_env (w : world) (name : string) : result string :=
  let value := env_value w name in
  if is_empty value then
    Raise (WeeklyReportError
             (String.append "Missing required environment variable: " name))
  else Ok value.

Definition get_optional_env (w : world) (name : string) : option string :=
  let value := env_value w name in
  if is_empty value then None else Some value.

Definition fetch_defillama_stablecoins (w : world) : result (list pyval) :=
  payload <- stablecoins_response w ;;
  pegged_assets <- py_get payload "peggedAssets" ;;
  match pegged_assets with
  | VList items => Ok items
  | _ => Raise (WeeklyReportError "Unexpected DefiLlama stablecoins response structure")
  end.

Definition fetch_defillama_total_chart (w : world) : result (list pyval) :=
  payload <- chart_response w ;;
  match payload with
  | VList (point :: points) => Ok (point :: points)
  | _ => Raise (WeeklyReportError "Unexpected DefiLlama chart response structure")
  end.

Definition execute_dune_query (w : world) : result string :=
  response <- execute_response w ;;
  execution_id <- py_get response "execution_id" ;;
  if truthy execution_id then Ok (py_str B execution_id)
  else Raise (WeeklyReportError "Dune execute response is missing execution_id").

Definition format_dune_error (status_payload : pyval) : result string :=
  error_payload <- py_get status_payload "error" ;;
  let generic :=
    match status_payload with
    | VDict items =>
        String.append "Dune query execution failed with state "
          (py_str B (dict_get_default "state" (VStr "unknown") items))
    | _ => EmptyString
    end in
  match error_payload with
  | VDict items =>
      let error_message := dict_get_default "message" VNone items in
      if truthy error_message then Ok (py_str B error_message) else Ok generic
  | _ => Ok generic
  end.

Definition DUNE_MAX_POLLS : nat := 120.

Definition is_success_state (state : string) : bool :=
  String.eqb state "QUERY_STATE_COMPLETED"
  || String.eqb state "QUERY_STATE_COMPLETED_PARTIAL".

Definition is_failure_state (state : string) : bool :=
  String.eqb state "QUERY_STATE_FAILED"
  || String.eqb state "QUERY_STATE_CANCELED"
  || String.eqb state "QUERY_STATE_EXPIRED".

(** One poll: [Some] payload on success, [None] to poll again. *)
Definition read_status (status_payload : pyval) : result (option pyval) :=
  raw_state <- py_get status_payload "state" ;;
  let state := py_str B (py_or raw_state (VStr "")) in
  if is_success_state state then Ok (Some status_payload)
  else if is_failure_state state then
    message <- format_dune_error status_payload ;;
    Raise (WeeklyReportError message)
  else
    finished <- py_get status_payload "is_execution_finished" ;;
    if truthy finished then
      Raise (WeeklyReportError
               (String.append "Dune execution finished in unexpected state: "
                  (if is_empty state then "unknown"%string else state)))
    else Ok None.

Fixpoint poll_loop (attempts : nat) (responses : list (result pyval))
  : outcome pyval :=
  match attempts with
  | O =>
      Raises (WeeklyReportError
                "Dune query execution timed out while polling for results")
  | S attempts' =>
      match responses with
      | [] => Blocked
      | response :: later =>
          match (status_payload <- response ;; read_status status_payload) with
          | Raise e => Raises e
          | Ok (Some status_payload) => Returns status_payload
          | Ok None => poll_loop attempts' later
          end
      end
  end.

Definition wait_for_dune_execution (w : world) : outcome pyval :=
  poll_loop DUNE_MAX_POLLS (status_responses w).

Definition metrics_value (metrics : list (string * option float)) : pyval :=
  VDict (map (fun kv =>
                (fst kv, match snd kv with Some f => VFloat f | None => VNone end))
           metrics).

Definition build_history_entry (w : world) (window : string * string)
  (metrics : list (string * option float)) (missing : list string) : pyval :=
  VDict [("run_time_beijing", VStr (run_time_iso w));
         ("start_date", VStr (fst window));
         ("end_date", VStr (snd window));
         ("metrics", metrics_value metrics);
         ("missing_symbols", VList (map VStr missing))]%string.

(** The write of [save_history]: [write_text] opens the file, which
    empties it, and then encodes the text. *)
Definition write_history (w : world) (history : list pyval) : M unit :=
  fun s =>
    if history_encodable w (trimmed_history history)
    then (Returns tt, set_history_file (save_history history) s)
    else (Raises (UnicodeEncodeError None), set_history_file (Some Blank) s).

(** The body of the [try] of [run_report]. *)
Definition run_report_body (w : world) : M Z :=
  dune_api_key <~ lift (get_required_env w "DUNE_API_KEY") ;;
  dune_query_id <~ lift (id_text <- get_required_env w "DUNE_QUERY_ID" ;;
                         py_int B (VStr id_text)) ;;
  url <~ lift (get_required_env w "FEISHU_WEBHOOK_URL") ;;
  _ <~ modify (set_webhook_url url) ;;
  pegged_assets <~ lift (fetch_defillama_stablecoins w) ;;
  chart_points <~ lift (fetch_defillama_total_chart w) ;;
  '(top_symbols, usdc_supply_usd) <~
     lift (build_top20_symbols_and_usdc_supply B pegged_assets) ;;
  total_supply_usd <~ lift (get_total_supply_usd B chart_points) ;;
  _ <~ modify (set_metric "total_supply_usd" (Some total_supply_usd)) ;;
  _ <~ modify (set_metric "usdc_supply_usd" (Some usdc_supply_usd)) ;;
  _ <~ modify (set_metric "usdc_supply_share"
                 (Some (usdc_supply_usd / total_supply_usd)%float)) ;;
  _ <~ modify (set_report_window (window_iso w)) ;;
  execution_id <~ lift (execute_dune_query w) ;;
  _ <~ lift_outcome (wait_for_dune_execution w) ;;
  dune_rows <~ lift_outcome (fst (fetch_dune_result_rows B (results_responses w))) ;;
  dune_symbol_totals <~ lift (extract_dune_symbol_totals B dune_rows) ;;
  '(volume_share, missing, _) <~
     lift (compute_dune_share B dune_symbol_totals top_symbols) ;;
  _ <~ modify (set_missing_symbols missing) ;;
  _ <~ modify (set_metric "usdc_transfer_volume_share_7d" volume_share) ;;
  match volume_share with
  | None =>
      lift (Raise (WeeklyReportError
        "Dune query result did not include usable USDC transfer volume data"))
  | Some _ =>
      file <~ gets history_file ;;
      history <~ lift (load_history file) ;;
      previous_metrics <~ lift (get_previous_metrics history) ;;
      metrics <~ gets partial_metrics ;;
      wow_map <~ lift (build_wow_map B metrics previous_metrics) ;;
      let entry := build_history_entry w (window_iso w) metrics missing in
      _ <~ write_history w (history ++ [entry]) ;;
      _ <~ send_feishu_message w
             (SuccessReport (window_iso w) metrics wow_map missing) ;;
      ret 0%Z
  end.

(** The [except] of [run_report].  Its first log lines stand outside the
    inner [try]: the error message, the traceback, and the missing
    symbols joined by commas. *)
Definition report_failure (w : world) (exc : exn) : M Z :=
  _ <~ log (error_printable w exc) exc ;;
  _ <~ log (traceback_printable w exc) exc ;;
  missing <~ gets missing_symbols ;;
  _ <~ log (forallb (printable w) missing) exc ;;
  _ <~ try_except (notify_failure w exc)
         (fun notify_exc =>
            _ <~ log (error_printable w notify_exc) notify_exc ;;
            log (traceback_printable w notify_exc) notify_exc) ;;
  ret 1%Z.

Definition initial_state (w : world) : run_state :=
  {| partial_metrics :=
       [("total_supply_usd", None); ("usdc_supply_usd", None);
        ("usdc_supply_share", None);
        ("usdc_transfer_volume_share_7d", None)]%string;
     missing_symbols := [];
     report_window := None;
     webhook_url := get_optional_env w "FEISHU_WEBHOOK_URL";
     history_file := stored_history w;
     webhook_pending := webhook_responses w;
     posted := [];
     wire := [] |}.

(** [run_report]: the exit code, and the state the run leaves behind. *)
Definition run_report (w : world) : outcome Z * run_state :=
  if negb (should_run w) then (Returns 0%Z, initial_state w)
  else
    try_except (run_report_body w) (report_failure w) (initial_state w).

End WithBuiltinsRun.

(** ** A runtime for the examples *)

(** The examples of Part III run the program on concrete inputs, so they
    need the built-ins as functions.  [example_runtime] agrees with
    CPython on what the examples reach: [int] and [float] of plain
    decimal integer text with an optional minus sign, [str] of [None],
    booleans and integers, and [sum] by left-to-right addition (exact on
    the sums that occur). *)
Definition decimal_text_to_int (s : string) : option Z :=
  option_map Z.of_int (NilZero.int_of_string (strip s)).

Definition decimal_text_to_float (s : string) : option float :=
  option_map (fun z => SF2Prim (binary_normalize prec emax z 0 false))
    (decimal_text_to_int s).

Definition str_of_scalar (v : pyval) : string :=
  match v with
  | VNone => "None"
  | VBool true => "True"
  | VBool false => "False"
  | VInt z => decimal z
  | _ => EmptyString
  end.

Definition left_to_right_sum (xs : list float) : float :=
  fold_left PrimFloat.add xs 0%float.

Definition example_runtime : builtins :=
  {| str_to_float := decimal_text_to_float;
     str_to_int := decimal_text_to_int;
     str_of := str_of_scalar;
     float_sum := left_to_right_sum |}.


(** ** The schedule *)

Definition RUN_WEEKDAY : Z := 0.
Definition RUN_HOUR : Z := 7.
Definition RUN_MINUTE : Z := 0.

(** A [datetime] in the report's time zone, by the fields the program
    reads: the proleptic Gregorian ordinal of its date, the hour and the
    minute. *)
Record datetime : Type := {
  toordinal : Z;
  hour : Z;
  minute : Z
}.

(** [date.weekday()]: Monday is 0. *)
Definition weekday (ordinal : Z) : Z := ((ordinal + 6) mod 7)%Z.

Definition is_force_run_enabled (w : world) : bool :=
  String.eqb (env_value w "FORCE_RUN") "1".

Definition should_run_now (report_now : datetime) (force_run : bool) : bool :=
  if force_run then true
  else (weekday (toordinal report_now) =? RUN_WEEKDAY)%Z
       && (hour report_now =? RUN_HOUR)%Z
       && (minute report_now =? RUN_MINUTE)%Z.

(** [d - timedelta(days=n)]: there is no date before ordinal 1. *)
Definition date_minus_days (d n : Z) : result Z :=
  if (d - n <? 1)%Z then Raise OverflowError else Ok (d - n)%Z.

Definition get_report_window (report_now : datetime) : result (Z * Z) :=
  end_date <- date_minus_days (toordinal report_now) 1 ;;
  start_date <- date_minus_days end_date 6 ;;
  Ok (start_date, end_date).
(** * Part II: the vocabulary of the statements *)

(** ** Order of binary64 numbers *)

(** Comparisons of floats are read through their specification
    ([SFcompare] on [Prim2SF]): apart from NaN, a float is ranked by its
    class (negative infinity, negative, zero, positive, positive
    infinity), then by exponent and mantissa. *)
Definition sf_key (x : spec_float) : Z * Z * Z :=
  match x with
  | S754_zero _ => (0, 0, 0)
  | S754_infinity s => (if s then -2 else 2, 0, 0)
  | S754_nan => (0, 0, 0)
  | S754_finite s m e => if s then (-1, - e, - Zpos m) else (1, e, Zpos m)
  end%Z.

Definition key_compare (a b : Z * Z * Z) : comparison :=
  let '(a1, a2, a3) := a in
  let '(b1, b2, b3) := b in
  match (a1 ?= b1)%Z with
  | Eq => match (a2 ?= b2)%Z with Eq => (a3 ?= b3)%Z | c => c end
  | c => c
  end.

Definition key_le (a b : Z * Z * Z) : Prop :=
  let '(a1, a2, a3) := a in
  let '(b1, b2, b3) := b in
  (a1 < b1 \/ a1 = b1 /\ (a2 < b2 \/ a2 = b2 /\ a3 <= b3))%Z.

Definition key_lt (a b : Z * Z * Z) : Prop :=
  let '(a1, a2, a3) := a in
  let '(b1, b2, b3) := b in
  (a1 < b1 \/ a1 = b1 /\ (a2 < b2 \/ a2 = b2 /\ a3 < b3))%Z.

Definition fkey (x : float) : Z * Z * Z := sf_key (Prim2SF x).

Ltac key_cases :=
  repeat match goal with
         | |- context [fkey ?x] =>
             let a := fresh "a" in
             let b := fresh "b" in
             let c := fresh "c" in
             destruct (fkey x) as [[a b] c]
         | H : context [fkey ?x] |- _ =>
             let a := fresh "a" in
             let b := fresh "b" in
             let c := fresh "c" in
             destruct (fkey x) as [[a b] c]
         end;
  cbn in *.


(** ** History store *)


(** Fifty-two numbered entries, for the examples. *)
Definition numbered_entry (n : nat) : pyval :=
  VDict [("end_date"%string, VInt (Z.of_nat n))].

Definition full_history : list pyval := map numbered_entry (seq 1 52).

(** ** Supply side *)

Section SupplyVocabulary.

Variable B : builtins.






End SupplyVocabulary.

(** A USD-pegged asset in DefiLlama's shape, for the examples. *)
Definition usd_asset (symbol : string) (circulating : pyval) : pyval :=
  VDict [("symbol", VStr symbol); ("pegType", VStr "peggedUSD");
         ("circulating", VDict [("peggedUSD", circulating)])]%string.

(** ** The top-20 selection, in the words of the specification *)



Section SelectionVocabulary.

Variable B : builtins.


Definition raw_symbol (asset : pyval) : string :=
  match py_get asset "symbol" with
  | Ok raw => py_str B (py_or raw (VStr ""))
  | Raise _ => EmptyString
  end.





End SelectionVocabulary.

(** USDC and twenty-four assets X1 .. X24 with the amounts 1 .. 24. *)
Definition twenty_five_assets : list pyval :=
  map (fun n => usd_asset (String.append "X" (decimal (Z.of_nat n)))
                  (VInt (Z.of_nat n)))
    (seq 1 24)
  ++ [usd_asset "USDC" (VInt 1000)].





Definition fresh (seen : list string) (names : list string) : list string :=
  filter (fun x => negb (set_mem x seen)) names.


(** ** Pagination *)

(** A page after which the loop goes on: its payload reads as
    [page_rows] and a cursor, the cursor is present and converts to the
    next offset. *)
Record turned_page : Type := {
  payload_of : pyval;
  page_rows : list pyval;
  cursor : pyval;
  next_offset : Z
}.

Definition turns (B : builtins) (t : turned_page) : Prop :=
  read_result_page (payload_of t) = Ok (page_rows t, cursor t)
  /\ cursor t <> VNone
  /\ py_int B (cursor t) = Ok (next_offset t).

Definition served (earlier : list turned_page) : list (result pyval) :=
  map (fun t => Ok (payload_of t)) earlier.

(** A result page in Dune's shape, for the examples. *)
Definition dune_page (rows : list pyval) (next : pyval) : pyval :=
  VDict [("result", VDict [("rows", VList rows)]); ("next_offset", next)]%string.

Definition volume_row (symbol : string) (volume : float) : pyval :=
  VDict [("symbol", VStr symbol); ("volume_7d_usd", VFloat volume)]%string.

(** ** Volume totals *)

Section TotalsVocabulary.

Variable B : builtins.

(** What the rows contribute, in row order: skipped rows give nothing. *)
Definition contributions (rows : list pyval) : list (string * float) :=
  flat_map (fun row =>
              match row_volume B row with
              | Ok (Some p) => [p]
              | _ => []
              end) rows.

(** The volumes of one symbol, in row order. *)
Definition volumes_of (symbol : string) (rows : list pyval) : list float :=
  map snd (filter (fun p => String.eqb (fst p) symbol) (contributions rows)).

End TotalsVocabulary.

(** The float sum of volumes from left to right, starting from 0.0;
    nothing for a symbol without volumes. *)
Definition sum_in_order (volumes : list float) : option float :=
  match volumes with
  | [] => None
  | _ :: _ => Some (fold_left PrimFloat.add volumes 0%float)
  end.

Definition so_far (symbol : string) (totals : list (string * float)) : float :=
  match dict_get symbol totals with
  | Some t => t
  | None => 0%float
  end.

(** Three rows of one symbol, and the same rows in reverse. *)
Definition rows_up : list pyval :=
  [volume_row "usdc" 0.1; volume_row "usdc" 0.2; volume_row "usdc" 0.3].

Definition rows_down : list pyval :=
  [volume_row "usdc" 0.3; volume_row "usdc" 0.2; volume_row "usdc" 0.1].

(** ** A run whose query result holds no USDC row *)

Definition example_env (name : string) : string :=
  if String.eqb name "DUNE_API_KEY" then "secret"
  else if String.eqb name "DUNE_QUERY_ID" then "4711"
  else if String.eqb name "FEISHU_WEBHOOK_URL" then "https://open.feishu.cn/hook"
  else EmptyString.

Definition example_supply_assets : list pyval :=
  [usd_asset "USDT" (VInt 750000000); usd_asset "USDC" (VInt 250000000)].

Definition example_chart : list pyval :=
  [VDict [("totalCirculating", VDict [("peggedUSD", VInt 900000000)])];
   VDict [("totalCirculating", VDict [("peggedUSD", VInt 1000000000)])]]%string.

Definition example_status : pyval :=
  VDict [("state", VStr "QUERY_STATE_COMPLETED")]%string.

Definition accepted : pyval := VDict [("code"%string, VInt 0)].

(** A webhook that answers the first attempt with [data]. *)
Definition answers (data : pyval) : nat -> attempt (option pyval) :=
  fun _ => Responds (Some data).

(** The world of the run, up to the rows of the query result. *)
Definition example_world (rows : list pyval) : world :=
  {| should_run := true;
     run_time_iso := "2026-01-05T07:00:00+08:00";
     window_iso := ("2025-12-29", "2026-01-04")%string;
     getenv := example_env;
     stablecoins_response := Ok (VDict [("peggedAssets"%string, VList example_supply_assets)]);
     chart_response := Ok (VList example_chart);
     execute_response := Ok (VDict [("execution_id"%string, VStr "01HX")]);
     status_responses :=
       [Ok (VDict [("state"%string, VStr "QUERY_STATE_EXECUTING")]); Ok example_status];
     results_responses := [Ok (dune_page rows VNone)];
     webhook_responses := [answers accepted; answers accepted];
     request_error_text := fun _ => "request failed"%string;
     stored_history := Some (Json (VList [numbered_entry 1]));
     history_encodable := fun _ => true;
     stdout_accepts := fun _ => true |}.

Definition rows_without_usdc : list pyval := [volume_row "usdt" 60].

Definition rows_with_usdc : list pyval :=
  [volume_row "usdt" 60; volume_row "USDC" 40].

Definition supply_metrics (transfer_share : option float)
  : list (string * option float) :=
  [("total_supply_usd", Some 1000000000%float);
   ("usdc_supply_usd", Some 250000000%float);
   ("usdc_supply_share", Some 0.25%float);
   ("usdc_transfer_volume_share_7d", transfer_share)]%string.

Definition usdc_missing_report : report :=
  FailureReport
    (WeeklyReportError
       "Dune query result did not include usable USDC transfer volume data")
    (supply_metrics None) (Some ("2025-12-29", "2026-01-04")%string)
    ["usdc"%string].

(** * More vocabulary *)

(** ** The history file *)



(** ** The webhook *)

(** A computation that calls [request_feishu] at most [n] times, and so
    puts at most three times as many requests on the wire. *)
Definition posts_at_most {A : Type} (n : nat) (m : M A) : Prop :=
  forall s,
    exists calls requests,
      posted (snd (m s)) = posted s ++ calls
      /\ wire (snd (m s)) = wire s ++ requests
      /\ (List.length calls <= n)%nat
      /\ (List.length requests <= 3 * n)%nat.

(** A computation that does not lose the webhook address. *)
Definition keeps_webhook_url {A : Type} (m : M A) : Prop :=
  forall s, webhook_url s <> None -> webhook_url (snd (m s)) <> None.

(** A webhook that answers every attempt with status 503. *)
Definition unavailable : nat -> attempt (option pyval) :=
  fun _ => Fails (HTTPError (Some 503%Z)).

(** ** Outcomes of a computation *)

(** A computation that can only end with exit code 0, an exception, or
    waiting for an answer. *)
Definition ends_with_zero (m : M Z) : Prop :=
  forall s,
    fst (m s) = Returns 0%Z \/ (exists e, fst (m s) = Raises e) \/ fst (m s) = Blocked.

(** The error of a log line that did not print. *)
Definition log_failure (e : exn) : Prop :=
  exists handled, e = UnicodeEncodeError (Some handled).

(** A computation that lets no other exception out. *)
Definition raises_only_log_failures {A : Type} (m : M A) : Prop :=
  forall s e, fst (m s) = Raises e -> log_failure e.

(** ** Worlds for the examples *)

(** The world of [example_world], up to the assets, the rows of the query
    result, the webhook and the standard output. *)
Definition example_world_of (assets rows : list pyval)
  (webhook : list (nat -> attempt (option pyval))) (stdout : string -> bool) : world :=
  {| should_run := true;
     run_time_iso := "2026-01-05T07:00:00+08:00";
     window_iso := ("2025-12-29", "2026-01-04")%string;
     getenv := example_env;
     stablecoins_response := Ok (VDict [("peggedAssets"%string, VList assets)]);
     chart_response := Ok (VList example_chart);
     execute_response := Ok (VDict [("execution_id"%string, VStr "01HX")]);
     status_responses := [Ok example_status];
     results_responses := [Ok (dune_page rows VNone)];
     webhook_responses := webhook;
     request_error_text := fun _ => "request failed"%string;
     stored_history := Some (Json (VList [numbered_entry 1]));
     history_encodable := fun _ => true;
     stdout_accepts := stdout |}.

(** A symbol with a character outside ASCII. *)
Definition latin_symbol : string := String (ascii_of_nat 233) "UR".

(** A run without a USDC row whose missing symbols hold [latin_symbol],
    on a standard output that takes ASCII only. *)
Definition world_with_unprintable_symbol : world :=
  example_world_of
    (example_supply_assets ++ [usd_asset latin_symbol (VInt 1000)])
    rows_without_usdc [answers accepted; answers accepted] (fun _ => false).

(** A run with a USDC row whose webhook is down. *)
Definition world_with_webhook_down : world :=
  example_world_of example_supply_assets rows_with_usdc
    [unavailable; unavailable; unavailable; unavailable] (fun _ => true).

(** ** Polling *)

Definition timed_out : exn :=
  WeeklyReportError "Dune query execution timed out while polling for results".

Definition still_running : pyval :=
  VDict [("state", VStr "QUERY_STATE_EXECUTING");
         ("is_execution_finished", VBool false)]%string.

(** ** Text *)


(** ** Rows of the query result *)

(** The value of the last item of a row whose key, in lower case, is
    [column]. *)
Definition last_column (column : string) (items : list (string * pyval))
  : option pyval :=
  option_map snd (find (fun kv => String.eqb column (lower (fst kv))) (rev items)).



(** * Part III: lemmas and theorems *)

(** ** Order of binary64 numbers *)

Lemma SFcompare_key x y :
  x <> S754_nan -> y <> S754_nan ->
  SFcompare x y = Some (key_compare (sf_key x) (sf_key y)).
Proof.
  intros Hx Hy.
  destruct x as [sx|sx| |sx mx ex], y as [sy|sy| |sy my ey];
    try congruence; try reflexivity;
    try (destruct sx; reflexivity); try (destruct sy; reflexivity);
    try (destruct sx, sy; reflexivity).
  destruct sx, sy; try reflexivity; cbn -[Z.compare Z.opp].
  change (-1 ?= -1)%Z with Eq.
  destruct (Z.compare_spec ex ey), (Z.compare_spec (- ex) (- ey));
    try lia; reflexivity.
Qed.

Lemma key_compare_lt a b : key_compare a b = Lt <-> key_lt a b.
Proof.
  destruct a as [[a1 a2] a3], b as [[b1 b2] b3]; cbn.
  destruct (Z.compare_spec a1 b1), (Z.compare_spec a2 b2), (Z.compare_spec a3 b3);
    split; intros; try discriminate; try lia; reflexivity.
Qed.

Lemma Prim2SF_not_nan x : is_nan x = false -> Prim2SF x <> S754_nan.
Proof.
  intros H. unfold Prim2SF. rewrite H.
  destruct (is_zero x); [discriminate|].
  destruct (is_infinity x); [discriminate|].
  destruct (Z.frexp x) as [r e].
  destruct (shr_fexp _ _ _ _ _) as [shr e'].
  destruct (shr_m shr); discriminate.
Qed.

Lemma ltb_true_key x y :
  (x <? y)%float = true ->
  is_nan x = false /\ is_nan y = false /\ key_lt (fkey x) (fkey y).
Proof.
  rewrite ltb_spec. unfold SFltb. intros H.
  assert (Hx : is_nan x = false).
  { destruct (is_nan x) eqn:E; [|reflexivity].
    unfold Prim2SF in H. rewrite E in H. discriminate. }
  assert (Hy : is_nan y = false).
  { destruct (is_nan y) eqn:E; [|reflexivity].
    unfold Prim2SF at 2 in H. rewrite E in H.
    destruct (Prim2SF x); discriminate. }
  repeat split; trivial.
  rewrite SFcompare_key in H by (apply Prim2SF_not_nan; assumption).
  apply key_compare_lt. destruct (key_compare _ _); congruence.
Qed.

Lemma ltb_key x y :
  is_nan x = false -> is_nan y = false ->
  (x <? y)%float = true <-> key_lt (fkey x) (fkey y).
Proof.
  intros Hx Hy. split.
  - intros H. apply ltb_true_key in H. tauto.
  - intros H. rewrite ltb_spec. unfold SFltb.
    rewrite SFcompare_key by (apply Prim2SF_not_nan; assumption).
    apply key_compare_lt in H. unfold fkey in H. rewrite H. reflexivity.
Qed.

Lemma leb_key x y :
  is_nan x = false -> is_nan y = false ->
  (x <=? y)%float = true <-> key_le (fkey x) (fkey y).
Proof.
  intros Hx Hy. rewrite leb_spec. unfold SFleb, fkey.
  rewrite SFcompare_key by (apply Prim2SF_not_nan; assumption).
  destruct (sf_key (Prim2SF x)) as [[a1 a2] a3],
    (sf_key (Prim2SF y)) as [[b1 b2] b3]; cbn.
  destruct (Z.compare_spec a1 b1), (Z.compare_spec a2 b2), (Z.compare_spec a3 b3);
    split; intros; try discriminate; try lia; reflexivity.
Qed.






Lemma eqb_leb x y : (x =? y)%float = true -> (x <=? y)%float = true.
Proof.
  rewrite eqb_spec, leb_spec. unfold SFeqb, SFleb.
  destruct (SFcompare _ _) as [[| |]|]; congruence.
Qed.

Lemma eqb_key x y :
  is_nan x = false -> is_nan y = false ->
  (x =? y)%float = true <-> fkey x = fkey y.
Proof.
  intros Hx Hy. rewrite eqb_spec. unfold SFeqb, fkey.
  rewrite SFcompare_key by (apply Prim2SF_not_nan; assumption).
  destruct (sf_key (Prim2SF x)) as [[a1 a2] a3],
    (sf_key (Prim2SF y)) as [[b1 b2] b3]; cbn.
  destruct (Z.compare_spec a1 b1), (Z.compare_spec a2 b2), (Z.compare_spec a3 b3);
    split; intros K; try discriminate; try reflexivity;
    try (injection K as K1 K2 K3; lia); subst; reflexivity.
Qed.


Lemma eqb_refl x : is_nan x = false -> (x =? x)%float = true.
Proof.
  intros Hx. apply eqb_key; trivial.
Qed.



(** ** History store *)

Lemma trimmed_history_length history :
  List.length (trimmed_history history)
  = Nat.min (List.length history) MAX_HISTORY_ITEMS.
Proof.
  unfold trimmed_history. rewrite length_skipn. lia.
Qed.

Lemma trimmed_history_suffix history :
  firstn (List.length history - MAX_HISTORY_ITEMS) history ++ trimmed_history history
  = history.
Proof.
  unfold trimmed_history. apply firstn_skipn.
Qed.

(** C7. [save_history] after an append persists the last 52 items of the
    list: what is persisted is a suffix of the appended history (so the
    oldest entries go first and the order of the others is kept), it has
    at most 52 entries, and appending to a history of exactly 52 entries
    persists exactly 52: the old ones without the first, then the new
    entry. *)
Theorem save_history_keeps_last_52 :
  forall (history : list pyval) (entry : pyval),
  exists evicted kept : list pyval,
    save_history (history ++ [entry]) = Some (Json (VList kept))
    /\ history ++ [entry] = evicted ++ kept
    /\ List.length kept = Nat.min (S (List.length history)) 52
    /\ (List.length history = 52 ->
        kept = tl history ++ [entry]
        /\ evicted = firstn 1 history
        /\ List.length kept = 52).
Proof.
  intros history entry.
  exists (firstn (List.length (history ++ [entry]) - MAX_HISTORY_ITEMS)
            (history ++ [entry])).
  exists (trimmed_history (history ++ [entry])).
  split; [reflexivity|].
  split; [symmetry; apply trimmed_history_suffix|].
  split.
  - rewrite trimmed_history_length, length_app. unfold MAX_HISTORY_ITEMS.
    cbn [List.length]. lia.
  - intros Hfull. unfold trimmed_history.
    rewrite length_app, Hfull. unfold MAX_HISTORY_ITEMS.
    change (52 + List.length [entry] - 52)%nat with 1%nat.
    destruct history as [|oldest others]; [discriminate|].
    cbn [app skipn firstn tl].
    split; [reflexivity|]. split; [reflexivity|].
    rewrite length_app. cbn in *. lia.
Qed.

Lemma save_history_keeps_last_52_witness :
  List.length full_history = 52%nat
  /\ save_history (full_history ++ [numbered_entry 53])
     = Some (Json (VList (tl full_history ++ [numbered_entry 53]))).
Proof.
  split; [reflexivity|].
  destruct (save_history_keeps_last_52 full_history (numbered_entry 53))
    as (evicted & kept & Hsave & _ & _ & Hfull).
  destruct (Hfull eq_refl) as (Hkept & _ & _).
  rewrite Hsave, Hkept. reflexivity.
Defined.




(** ** Dictionaries *)

Section DictFacts.

Context {V : Type}.

Lemma dict_get_set_same (k : string) (v : V) d :
  dict_get k (dict_set k v d) = Some v.
Proof.
  induction d as [|[k' v'] d IH]; cbn.
  - rewrite String.eqb_refl. reflexivity.
  - destruct (String.eqb k k') eqn:E; cbn; rewrite E; [reflexivity|exact IH].
Qed.

Lemma dict_get_set_other (k k' : string) (v : V) d :
  k <> k' -> dict_get k (dict_set k' v d) = dict_get k d.
Proof.
  intros Hne. induction d as [|[k0 v0] d IH]; cbn.
  - apply String.eqb_neq in Hne. rewrite Hne. reflexivity.
  - destruct (String.eqb k' k0) eqn:E; cbn.
    + apply String.eqb_eq in E. subst k0.
      apply String.eqb_neq in Hne. rewrite Hne. reflexivity.
    + rewrite IH. reflexivity.
Qed.

Lemma dict_mem_set (k k' : string) (v : V) d :
  dict_mem k (dict_set k' v d) = String.eqb k k' || dict_mem k d.
Proof.
  unfold dict_mem. destruct (String.eqb k k') eqn:E.
  - apply String.eqb_eq in E. subst. rewrite dict_get_set_same. reflexivity.
  - apply String.eqb_neq in E. rewrite dict_get_set_other by assumption. reflexivity.
Qed.

End DictFacts.

(** ** Transfer-volume share *)

Lemma partition_symbols_get totals symbols missing denominator_totals k :
  dict_get k (snd (partition_symbols totals symbols missing denominator_totals))
  = match (if set_mem k symbols then dict_get k totals else None) with
    | Some total => Some total
    | None => dict_get k denominator_totals
    end.
Proof.
  revert missing denominator_totals.
  induction symbols as [|symbol rest IH]; intros missing denominator_totals; cbn.
  - reflexivity.
  - unfold set_mem in *. cbn [existsb].
    destruct (dict_get symbol totals) as [total|] eqn:Hsym; rewrite IH;
      destruct (String.eqb k symbol) eqn:E; cbn [orb].
    + apply String.eqb_eq in E. subst symbol. rewrite Hsym.
      destruct (existsb (String.eqb k) rest); [reflexivity|].
      apply dict_get_set_same.
    + apply String.eqb_neq in E.
      rewrite dict_get_set_other by assumption. reflexivity.
    + apply String.eqb_eq in E. subst symbol. rewrite Hsym.
      destruct (existsb (String.eqb k) rest); reflexivity.
    + reflexivity.
Qed.

Lemma denominator_totals_usdc totals symbols :
  dict_get "usdc" (snd (partition_symbols totals symbols [] []))
  = if set_mem "usdc" symbols then dict_get "usdc" totals else None.
Proof.
  rewrite partition_symbols_get.
  destruct (set_mem "usdc" symbols); [destruct (dict_get "usdc" totals)|]; reflexivity.
Qed.

Lemma compute_dune_share_absent B totals symbols :
  set_mem "usdc" symbols && dict_mem "usdc" totals = false ->
  compute_dune_share B totals symbols
  = Ok (None, fst (partition_symbols totals symbols [] []),
        snd (partition_symbols totals symbols [] [])).
Proof.
  intros Habsent. unfold compute_dune_share.
  pose proof (denominator_totals_usdc totals symbols) as Hget.
  destruct (partition_symbols totals symbols [] []) as [missing denominator_totals].
  cbn [fst snd] in *. rewrite Hget.
  unfold dict_mem in Habsent.
  destruct (set_mem "usdc" symbols); [|reflexivity].
  destruct (dict_get "usdc" totals); [discriminate|reflexivity].
Qed.

(** C2.  With totals [{usdc: 40, usdt: 60}] and top set [{usdc, usdt}] the
    share is 0.4; when "usdc" is not among the top symbols found in the
    totals the share is [None] and nothing is raised; when it is, a sum of
    the found totals that equals zero raises [WeeklyReportError], and a
    sum above zero gives the quotient. *)
Theorem compute_dune_share_cases :
  compute_dune_share example_runtime
    [("usdc", 40); ("usdt", 60)]%string%float ["usdc"; "usdt"]%string
  = Ok (Some 0.4%float, [], [("usdc", 40); ("usdt", 60)]%string%float)
  /\ (forall B totals symbols,
        set_mem "usdc" symbols && dict_mem "usdc" totals = false ->
        exists missing denominator_totals,
          compute_dune_share B totals symbols = Ok (None, missing, denominator_totals))
  /\ (forall B totals symbols usdc_total,
        set_mem "usdc" symbols = true ->
        dict_get "usdc" totals = Some usdc_total ->
        let denominator_totals := snd (partition_symbols totals symbols [] []) in
        let denominator := float_sum B (dict_values denominator_totals) in
        ((denominator =? 0)%float = true ->
         compute_dune_share B totals symbols
         = Raise (WeeklyReportError "Dune denominator volume is zero"))
        /\ ((denominator <=? 0)%float = false ->
            exists missing,
              compute_dune_share B totals symbols
              = Ok (Some (usdc_total / denominator)%float, missing, denominator_totals))).
Proof.
  split; [vm_compute; reflexivity|]. split.
  - intros B totals symbols Habsent.
    rewrite (compute_dune_share_absent B totals symbols Habsent). eauto.
  - intros B totals symbols usdc_total Hin Hget denominator_totals denominator.
    assert (Husdc : dict_get "usdc" denominator_totals = Some usdc_total).
    { unfold denominator_totals. rewrite denominator_totals_usdc, Hin. exact Hget. }
    unfold compute_dune_share.
    fold denominator_totals in Husdc. subst denominator.
    unfold denominator_totals in *.
    destruct (partition_symbols totals symbols [] []) as [missing dt].
    cbn [snd] in *. rewrite Husdc. split.
    + intros Hzero. rewrite (eqb_leb _ _ Hzero). reflexivity.
    + intros Hpos. rewrite Hpos. exists missing. reflexivity.
Qed.

Lemma compute_dune_share_cases_witness :
  compute_dune_share example_runtime [("usdt", 60%float)]%string ["usdc"; "usdt"]%string
  = Ok (None, ["usdc"%string], [("usdt", 60%float)]%string)
  /\ compute_dune_share example_runtime
       [("usdc", 0); ("usdt", 0)]%string%float ["usdc"; "usdt"]%string
     = Raise (WeeklyReportError "Dune denominator volume is zero").
Proof.
  split.
  - destruct (proj1 (proj2 compute_dune_share_cases) example_runtime
                [("usdt", 60%float)]%string ["usdc"; "usdt"]%string eq_refl)
      as (missing & denominator_totals & H).
    rewrite H. vm_compute in H. injection H as -> ->. reflexivity.
  - apply (proj2 (proj2 compute_dune_share_cases) example_runtime
             [("usdc", 0); ("usdt", 0)]%string%float ["usdc"; "usdt"]%string 0%float);
      reflexivity.
Defined.

(** ** Week-over-week changes *)

Lemma build_wow_map_entries B current previous_metrics wow_map :
  build_wow_map B current previous_metrics = Ok wow_map ->
  forall metric_name kind,
    In (metric_name, kind) METRIC_SPECS ->
    exists previous text,
      previous_value B previous_metrics metric_name = Ok previous
      /\ format_wow metric_name (metric_get current metric_name) previous = Ok text
      /\ dict_get metric_name wow_map = Some text.
Proof.
  unfold build_wow_map. cbn [METRIC_SPECS dict_keys map fst wow_loop].
  intros H.
  destruct (previous_value B previous_metrics "total_supply_usd")
    as [p1|] eqn:P1; cbn [bind] in H; [|discriminate].
  destruct (format_wow "total_supply_usd" _ p1) as [t1|] eqn:F1;
    cbn [bind] in H; [|discriminate].
  destruct (previous_value B previous_metrics "usdc_supply_usd")
    as [p2|] eqn:P2; cbn [bind] in H; [|discriminate].
  destruct (format_wow "usdc_supply_usd" _ p2) as [t2|] eqn:F2;
    cbn [bind] in H; [|discriminate].
  destruct (previous_value B previous_metrics "usdc_supply_share")
    as [p3|] eqn:P3; cbn [bind] in H; [|discriminate].
  destruct (format_wow "usdc_supply_share" _ p3) as [t3|] eqn:F3;
    cbn [bind] in H; [|discriminate].
  destruct (previous_value B previous_metrics "usdc_transfer_volume_share_7d")
    as [p4|] eqn:P4; cbn [bind] in H; [|discriminate].
  destruct (format_wow "usdc_transfer_volume_share_7d" _ p4) as [t4|] eqn:F4;
    cbn [bind] in H; [|discriminate].
  injection H as <-.
  intros metric_name kind Hin. cbn in Hin.
  destruct Hin as [Hin|[Hin|[Hin|[Hin|[]]]]]; injection Hin as <- <-.
  - exists p1, t1. repeat split; assumption || reflexivity.
  - exists p2, t2. repeat split; assumption || reflexivity.
  - exists p3, t3. repeat split; assumption || reflexivity.
  - exists p4, t4. repeat split; assumption || reflexivity.
Qed.

(** C8.  A side that is unavailable gives "N/A".  For a currency metric a
    previous value equal to zero gives "N/A", and any other gives the
    relative change in percent (100 to 150 is "+50.00%").  For a share
    metric the change is the difference in percentage points (0.40 to
    0.45 is "+5.00pp").  [build_wow_map] applies this to each of the four
    metrics. *)
Theorem format_wow_cases :
  (forall metric_name current previous,
      current = None \/ previous = None ->
      format_wow metric_name current previous = Ok "N/A"%string)
  /\ (forall metric_name current previous,
        dict_get metric_name METRIC_SPECS = Some Currency ->
        ((previous =? 0)%float = true ->
         format_wow metric_name (Some current) (Some previous) = Ok "N/A"%string)
        /\ ((previous =? 0)%float = false ->
            format_wow metric_name (Some current) (Some previous)
            = Ok (format_signed_2pct ((current - previous) / previous)%float)))
  /\ (forall metric_name current previous,
        dict_get metric_name METRIC_SPECS = Some Share ->
        format_wow metric_name (Some current) (Some previous)
        = Ok (String.append (format_signed_2f ((current - previous) * 100)%float) "pp"))
  /\ format_wow "total_supply_usd" (Some 150%float) (Some 100%float)
     = Ok "+50.00%"%string
  /\ format_wow "usdc_supply_share" (Some 0.45%float) (Some 0.40%float)
     = Ok "+5.00pp"%string
  /\ (forall B current previous_metrics wow_map,
        build_wow_map B current previous_metrics = Ok wow_map ->
        forall metric_name kind,
          In (metric_name, kind) METRIC_SPECS ->
          exists previous text,
            previous_value B previous_metrics metric_name = Ok previous
            /\ format_wow metric_name (metric_get current metric_name) previous = Ok text
            /\ dict_get metric_name wow_map = Some text).
Proof.
  split.
  { intros metric_name current previous [-> | ->]; [reflexivity|].
    destruct current; reflexivity. }
  split.
  { intros metric_name current previous Hkind. unfold format_wow. rewrite Hkind.
    split; intros ->; reflexivity. }
  split.
  { intros metric_name current previous Hkind. unfold format_wow. rewrite Hkind.
    reflexivity. }
  split; [vm_compute; reflexivity|].
  split; [vm_compute; reflexivity|].
  exact build_wow_map_entries.
Qed.

Lemma format_wow_cases_witness :
  format_wow "usdc_supply_usd" (Some 150%float) None = Ok "N/A"%string
  /\ format_wow "usdc_supply_usd" (Some 150%float) (Some 0%float) = Ok "N/A"%string
  /\ format_wow "usdc_supply_usd" (Some 150%float) (Some 100%float)
     = Ok (format_signed_2pct ((150 - 100) / 100)%float)
  /\ format_wow "usdc_transfer_volume_share_7d" (Some 0.45%float) (Some 0.40%float)
     = Ok (String.append (format_signed_2f ((0.45 - 0.40) * 100)%float) "pp").
Proof.
  destruct format_wow_cases as (Hnone & Hcurrency & Hshare & _).
  split; [apply Hnone; right; reflexivity|].
  split; [apply Hcurrency; reflexivity|].
  split; [apply Hcurrency; reflexivity|].
  apply Hshare; reflexivity.
Defined.

(** ** Circulating amounts *)

Lemma int_to_float_cases z :
  (exists f, int_to_float z = Ok f) \/ int_to_float z = Raise OverflowError.
Proof.
  unfold int_to_float. destruct (is_infinity _); eauto.
Qed.

(** X1.  On a mapping, [get_pegged_usd_circulating] returns or raises
    [OverflowError]; nothing else escapes its [try]. *)
Lemma get_pegged_usd_circulating_cases B items :
  (exists f, get_pegged_usd_circulating B (VDict items) = Ok f)
  \/ get_pegged_usd_circulating B (VDict items) = Raise OverflowError.
Proof.
  unfold get_pegged_usd_circulating. cbn [py_get bind].
  set (circulating := match dict_get "circulating" items with
                      | Some x => x
                      | None => VNone
                      end).
  assert (Hfloat : forall value,
             (exists f, match py_float B (py_or value (VInt 0)) with
                        | Ok f => Ok f
                        | Raise TypeError => Ok 0%float
                        | Raise ValueError => Ok 0%float
                        | Raise e => Raise e
                        end = Ok f)
             \/ match py_float B (py_or value (VInt 0)) with
                | Ok f => Ok f
                | Raise TypeError => Ok 0%float
                | Raise ValueError => Ok 0%float
                | Raise e => Raise e
                end = Raise OverflowError).
  { intros value. unfold py_or.
    destruct (truthy value); [destruct value|]; cbn [py_float]; eauto.
    - destruct (int_to_float_cases z) as [[f ->]| ->]; eauto.
    - destruct (str_to_float B s); eauto.
    - left. eexists. reflexivity. }
  destruct circulating; cbn [isinstance_dict bind py_get]; apply Hfloat.
Qed.

(** X2.  A circulating field that is missing, null, or no number gives
    0.0. *)
Lemma get_pegged_usd_circulating_defaults B items :
  let value :=
    match dict_get "circulating" items with
    | Some (VDict inner) =>
        match dict_get "peggedUSD" inner with Some x => x | None => VNone end
    | Some x => x
    | None => VNone
    end in
  match value with
  | VNone | VList _ | VDict _ => True
  | VStr s => str_to_float B s = None
  | _ => False
  end ->
  get_pegged_usd_circulating B (VDict items) = Ok 0%float.
Proof.
  unfold get_pegged_usd_circulating. cbn [py_get bind].
  destruct (dict_get "circulating" items) as [[| | | | |l|inner]|];
    cbn [isinstance_dict bind py_get]; try contradiction; try reflexivity.
  - intros H. unfold py_or. destruct (truthy (VStr s)); cbn; [rewrite H|]; reflexivity.
  - intros _. destruct l; reflexivity.
  - destruct (dict_get "peggedUSD" inner) as [[| | | | |l|d]|];
      try contradiction; try reflexivity.
    + intros H. unfold py_or. destruct (truthy (VStr s)); cbn; [rewrite H|]; reflexivity.
    + intros _. destruct l; reflexivity.
    + intros _. destruct d; reflexivity.
Qed.

Lemma get_pegged_usd_circulating_defaults_witness :
  get_pegged_usd_circulating example_runtime
    (VDict [("symbol", VStr "USDX");
            ("circulating", VDict [("peggedUSD", VStr "n/a")])]%string)
  = Ok 0%float.
Proof.
  apply get_pegged_usd_circulating_defaults. reflexivity.
Defined.

(** C10 at its failing input: an integer too large for a float escapes the
    [try] of [get_pegged_usd_circulating] as [OverflowError], and takes
    [build_top20_symbols_and_usdc_supply] with it. *)
Theorem get_pegged_usd_circulating_overflow :
  forall B,
    get_pegged_usd_circulating B (usd_asset "BIG" (VInt (10 ^ 400)))
    = Raise OverflowError
    /\ build_top20_symbols_and_usdc_supply B
         [usd_asset "USDC" (VInt 30); usd_asset "BIG" (VInt (10 ^ 400))]
       = Raise OverflowError.
Proof.
  intros B. split; vm_compute; reflexivity.
Qed.

(** ** The first loop of the top-20 selection *)

Section CollectFacts.

Variable B : builtins.



End CollectFacts.

(** ** [max] *)



Lemma py_max_nonempty (xs : list float) :
  xs <> [] -> exists r, py_max xs = Ok r.
Proof.
  destruct xs; [congruence|]. intros _. eexists. reflexivity.
Qed.

(** ** The USDC supply *)






(** ** Strings *)






(** ** Lists *)






Lemma In_firstn_of {A : Type} n (l : list A) x : In x (firstn n l) -> In x l.
Proof.
  revert n. induction l as [|y l IH]; intros [|n]; cbn; try tauto.
  intros [H|H]; [left; exact H|right; eapply IH; exact H].
Qed.



(** ** The stable descending sort *)















(** ** Deduplication *)







(** ** The second loop of the top-20 selection *)




(** ** The top-20 selection against its specification *)

Section SelectionFacts.

Variable B : builtins.





End SelectionFacts.



(** Twenty-five USD-pegged assets with different symbols: the twenty
    largest are selected, largest first. *)
Example top20_selection_stops_at_twenty :
  build_top20_symbols_and_usdc_supply example_runtime twenty_five_assets
  = Ok (["usdc"; "x24"; "x23"; "x22"; "x21"; "x20"; "x19"; "x18"; "x17"; "x16";
         "x15"; "x14"; "x13"; "x12"; "x11"; "x10"; "x9"; "x8"; "x7"; "x6"]%string,
        1000%float).
Proof.
  vm_compute. reflexivity.
Qed.

(** ** Pagination *)

Section PaginationFacts.

Variable B : builtins.

Lemma fetch_loop_turn t later rows offset :
  turns B t ->
  fetch_loop B (Ok (payload_of t) :: later) rows offset
  = (fst (fetch_loop B later (rows ++ page_rows t) (next_offset t)),
     offset :: snd (fetch_loop B later (rows ++ page_rows t) (next_offset t))).
Proof.
  intros (Hread & Hcursor & Hint).
  cbn [fetch_loop bind]. rewrite Hread.
  destruct (cursor t) eqn:Ec; try congruence; rewrite Hint;
    destruct (fetch_loop B later (rows ++ page_rows t) (next_offset t));
    reflexivity.
Qed.

Lemma fetch_loop_stops earlier :
  forall last last_rows later rows offset,
    Forall (turns B) earlier ->
    read_result_page last = Ok (last_rows, VNone) ->
    fetch_loop B (served earlier ++ Ok last :: later) rows offset
    = (outcome_of (check_rows (rows ++ List.concat (map page_rows earlier) ++ last_rows)),
       offset :: map next_offset earlier).
Proof.
  induction earlier as [|t earlier IH]; intros last last_rows later rows offset Ht Hlast.
  - cbn [served map app fetch_loop bind List.concat]. rewrite Hlast. reflexivity.
  - inversion Ht as [|? ? Hturn Hrest]; subst.
    cbn [served map app]. rewrite fetch_loop_turn by exact Hturn.
    fold (served earlier). rewrite (IH last last_rows later) by assumption.
    cbn [fst snd map List.concat]. rewrite <- !app_assoc. reflexivity.
Qed.

Lemma fetch_loop_goes_on earlier :
  forall rows offset,
    Forall (turns B) earlier ->
    fetch_loop B (served earlier) rows offset
    = (Blocked, offset :: map next_offset earlier).
Proof.
  induction earlier as [|t earlier IH]; intros rows offset Ht.
  - reflexivity.
  - inversion Ht as [|? ? Hturn Hrest]; subst.
    cbn [served map]. rewrite fetch_loop_turn by exact Hturn.
    fold (served earlier). rewrite IH by assumption. reflexivity.
Qed.

End PaginationFacts.

Lemma read_result_page_rows payload_items result_items items :
  dict_get "result" payload_items = Some (VDict result_items) ->
  dict_get "rows" result_items = Some (VList items) ->
  read_result_page (VDict payload_items)
  = Ok (filter isinstance_dict items,
        match dict_get "next_offset" payload_items with
        | Some x => x
        | None => VNone
        end).
Proof.
  intros Hresult Hrows. unfold read_result_page.
  cbn [py_get bind]. rewrite Hresult. cbn [isinstance_dict negb py_get bind].
  rewrite Hrows. reflexivity.
Qed.

(** C5.  The first request asks for offset 0.  As long as the pages carry
    a cursor the loop goes on, however few rows they hold, and asks for
    the offset each cursor gives; it stops at the first page without a
    cursor, whatever that page holds, and reads no later page.  It then
    returns the mapping-shaped rows of all pages read, in order, and
    fails with [WeeklyReportError] when there are none.  A row that is no
    mapping is left out of its page's rows. *)
Theorem fetch_dune_result_rows_pagination :
  forall B (earlier : list turned_page),
    Forall (turns B) earlier ->
    fetch_dune_result_rows B (served earlier)
    = (Blocked, 0%Z :: map next_offset earlier)
    /\ (forall last last_rows later,
           read_result_page last = Ok (last_rows, VNone) ->
           let rows := List.concat (map page_rows earlier) ++ last_rows in
           fetch_dune_result_rows B (served earlier ++ Ok last :: later)
           = (match rows with
              | [] => Raises (WeeklyReportError "Dune query returned no rows")
              | _ :: _ => Returns rows
              end,
              0%Z :: map next_offset earlier))
    /\ (forall payload_items result_items items,
           dict_get "result" payload_items = Some (VDict result_items) ->
           dict_get "rows" result_items = Some (VList items) ->
           read_result_page (VDict payload_items)
           = Ok (filter isinstance_dict items,
                 match dict_get "next_offset" payload_items with
                 | Some x => x
                 | None => VNone
                 end)).
Proof.
  intros B earlier Hturns. split; [|split].
  - apply fetch_loop_goes_on. exact Hturns.
  - intros last last_rows later Hlast rows.
    unfold fetch_dune_result_rows.
    rewrite (fetch_loop_stops B earlier last last_rows later) by assumption.
    cbn [app]. fold rows. destruct rows; reflexivity.
  - exact read_result_page_rows.
Qed.

(** ** Volume totals *)

Section TotalsFacts.

Variable B : builtins.

Lemma accumulate_totals_ok rows :
  forall totals,
    is_ok (accumulate_totals B rows totals)
    = forallb (fun row => is_ok (row_volume B row)) rows.
Proof.
  induction rows as [|row rows IH]; intros totals; [reflexivity|].
  cbn [accumulate_totals forallb].
  destruct (row_volume B row) as [[[symbol volume]|]|e]; cbn [bind is_ok andb];
    [apply IH|apply IH|reflexivity].
Qed.

Lemma accumulate_totals_fold rows :
  forall totals totals',
    accumulate_totals B rows totals = Ok totals' ->
    totals'
    = fold_left (fun t p => add_volume t (fst p) (snd p)) (contributions B rows) totals.
Proof.
  induction rows as [|row rows IH]; intros totals totals' H.
  - cbn in H. injection H as <-. reflexivity.
  - cbn [accumulate_totals] in H. unfold contributions. cbn [flat_map].
    destruct (row_volume B row) as [[[symbol volume]|]|e]; cbn [bind] in H;
      [| |discriminate].
    + cbn [app fold_left fst snd]. apply IH, H.
    + cbn [app]. apply IH, H.
Qed.

Lemma totals_lookup contribs :
  forall totals symbol,
    dict_get symbol
      (fold_left (fun t p => add_volume t (fst p) (snd p)) contribs totals)
    = match map snd (filter (fun p => String.eqb (fst p) symbol) contribs) with
      | [] => dict_get symbol totals
      | v :: vs => Some (fold_left PrimFloat.add (v :: vs) (so_far symbol totals))
      end.
Proof.
  induction contribs as [|[k v] rest IH]; intros totals symbol; [reflexivity|].
  cbn [fold_left filter fst snd]. rewrite IH. unfold add_volume.
  destruct (String.eqb k symbol) eqn:E.
  - apply String.eqb_eq in E. subst k. cbn [map fold_left].
    unfold so_far at 1. rewrite dict_get_set_same. fold (so_far symbol totals).
    destruct (map snd (filter _ rest)); reflexivity.
  - assert (Hne : symbol <> k)
      by (intros ->; rewrite String.eqb_refl in E; discriminate).
    unfold so_far. rewrite dict_get_set_other by exact Hne. reflexivity.
Qed.

Lemma extract_dune_symbol_totals_lookup rows totals :
  extract_dune_symbol_totals B rows = Ok totals ->
  forall symbol, dict_get symbol totals = sum_in_order (volumes_of B symbol rows).
Proof.
  unfold extract_dune_symbol_totals. intros H symbol.
  destruct (accumulate_totals B rows []) as [t|e] eqn:E; cbn [bind] in H;
    [|discriminate].
  destruct t as [|p t]; [discriminate|]. injection H as <-.
  apply accumulate_totals_fold in E. rewrite E, totals_lookup.
  unfold volumes_of, sum_in_order.
  destruct (map snd _); reflexivity.
Qed.

Lemma extract_dune_symbol_totals_ok rows :
  is_ok (extract_dune_symbol_totals B rows)
  = forallb (fun row => is_ok (row_volume B row)) rows
    && match contributions B rows with [] => false | _ :: _ => true end.
Proof.
  unfold extract_dune_symbol_totals.
  rewrite <- (accumulate_totals_ok rows []).
  destruct (accumulate_totals B rows []) as [t|e] eqn:E; cbn [bind is_ok andb];
    [|reflexivity].
  pose proof (accumulate_totals_fold _ _ _ E) as Hfold.
  destruct (contributions B rows) as [|[k v] rest] eqn:Ec.
  - cbn in Hfold. subst t. reflexivity.
  - destruct t as [|p t]; [|reflexivity].
    exfalso.
    assert (Hget : dict_get k (@nil (string * float)) <> None).
    { rewrite Hfold at 1. rewrite totals_lookup. cbn [filter fst].
      rewrite String.eqb_refl. cbn [map]. discriminate. }
    apply Hget. reflexivity.
Qed.

End TotalsFacts.

Lemma forallb_Permutation {A : Type} (f : A -> bool) l l' :
  Permutation l l' -> forallb f l = forallb f l'.
Proof.
  induction 1; cbn; try congruence.
  destruct (f x), (f y); reflexivity.
Qed.

Lemma filter_nil_Permutation {A : Type} (f : A -> bool) l l' :
  Permutation l l' -> filter f l = [] -> filter f l' = [].
Proof.
  intros Hp Hnil.
  destruct (filter f l') as [|x rest] eqn:E; [reflexivity|].
  assert (Hin : In x (filter f l')) by (rewrite E; left; reflexivity).
  apply filter_In in Hin. destruct Hin as [Hin Hf].
  apply Permutation_sym in Hp.
  assert (Hin' : In x (filter f l))
    by (apply filter_In; split; [eapply Permutation_in; eassumption|exact Hf]).
  rewrite Hnil in Hin'. destruct Hin'.
Qed.

(** The counterexample of C9: the same three rows in two orders give two
    different totals for their symbol, since float addition is not
    associative. *)
Lemma extract_totals_depend_on_row_order :
  Permutation rows_up rows_down
  /\ extract_dune_symbol_totals example_runtime rows_up
     = Ok [("usdc"%string, 0.6000000000000001%float)]
  /\ extract_dune_symbol_totals example_runtime rows_down
     = Ok [("usdc"%string, 0.6%float)]
  /\ (0.6000000000000001 =? 0.6)%float = false.
Proof.
  split; [|split; [|split]]; try (vm_compute; reflexivity).
  change rows_down with (rev rows_up). apply Permutation_rev.
Qed.

(** C9, amended.  When the extraction succeeds on a list of rows it
    succeeds on every permutation of it, with the same set of symbols.
    The total of a symbol is the float sum of its volumes from left to
    right in row order, starting from 0.0; so the totals agree whenever
    the permutation keeps the volumes of every symbol in their order. *)
Theorem extract_totals_under_permutation :
  forall B rows rows' totals,
    Permutation rows rows' ->
    extract_dune_symbol_totals B rows = Ok totals ->
    exists totals',
      extract_dune_symbol_totals B rows' = Ok totals'
      /\ (forall symbol, dict_mem symbol totals' = dict_mem symbol totals)
      /\ (forall symbol,
             dict_get symbol totals = sum_in_order (volumes_of B symbol rows))
      /\ (forall symbol,
             dict_get symbol totals' = sum_in_order (volumes_of B symbol rows'))
      /\ ((forall symbol, volumes_of B symbol rows' = volumes_of B symbol rows) ->
          forall symbol, dict_get symbol totals' = dict_get symbol totals).
Proof.
  intros B rows rows' totals Hperm Hok.
  assert (Hcontrib : Permutation (contributions B rows) (contributions B rows'))
    by (apply Permutation_flat_map, Hperm).
  assert (Hok' : is_ok (extract_dune_symbol_totals B rows') = true).
  { pose proof (extract_dune_symbol_totals_ok B rows) as H.
    rewrite Hok in H. cbn [is_ok] in H.
    rewrite extract_dune_symbol_totals_ok.
    rewrite <- (forallb_Permutation _ _ _ Hperm).
    symmetry in H. apply andb_true_iff in H. destruct H as [-> Hsome].
    destruct (contributions B rows') eqn:E; [|reflexivity].
    apply Permutation_sym, Permutation_nil in Hcontrib.
    rewrite Hcontrib in Hsome. discriminate. }
  destruct (extract_dune_symbol_totals B rows') as [totals'|e] eqn:E';
    [|discriminate].
  exists totals'.
  pose proof (extract_dune_symbol_totals_lookup B rows totals Hok) as Hget.
  pose proof (extract_dune_symbol_totals_lookup B rows' totals' E') as Hget'.
  split; [reflexivity|]. split; [|split; [exact Hget|split; [exact Hget'|]]].
  - intros symbol. unfold dict_mem. rewrite Hget, Hget'. unfold volumes_of.
    set (f := fun p : string * float => String.eqb (fst p) symbol).
    destruct (filter f (contributions B rows)) as [|p l] eqn:F.
    + rewrite (filter_nil_Permutation f _ _ Hcontrib F). reflexivity.
    + destruct (filter f (contributions B rows')) as [|p' l'] eqn:F';
        [|reflexivity].
      apply Permutation_sym in Hcontrib.
      rewrite (filter_nil_Permutation f _ _ Hcontrib F') in F. discriminate.
  - intros Hsame symbol. rewrite Hget, Hget', Hsame. reflexivity.
Qed.

Lemma extract_totals_under_permutation_witness :
  exists totals',
    extract_dune_symbol_totals example_runtime
      [volume_row "usdt" 60; volume_row "usdc" 40; volume_row "usdc" 2]
    = Ok totals'
    /\ forall symbol,
        dict_mem symbol totals'
        = dict_mem symbol [("usdc", 42); ("usdt", 60)]%string%float.
Proof.
  destruct (extract_totals_under_permutation example_runtime
              [volume_row "usdc" 40; volume_row "usdt" 60; volume_row "usdc" 2]
              [volume_row "usdt" 60; volume_row "usdc" 40; volume_row "usdc" 2]
              [("usdc", 42); ("usdt", 60)]%string%float)
    as (totals' & H & Hmem & _).
  - apply perm_swap.
  - vm_compute. reflexivity.
  - exists totals'. split; assumption.
Defined.

(** The witness of C5: a short page and an empty page, both with a cursor,
    then a page without a cursor that holds a row and a stray string; the
    fourth page is never asked for. *)
Lemma fetch_dune_result_rows_pagination_witness :
  fetch_dune_result_rows example_runtime
    [Ok (dune_page [volume_row "usdc" 40] (VInt 1000));
     Ok (dune_page [] (VStr "2000"));
     Ok (dune_page [VStr "stray"; volume_row "usdt" 60] VNone);
     Ok (dune_page [volume_row "dai" 5] VNone)]
  = (Returns [volume_row "usdc" 40; volume_row "usdt" 60], [0; 1000; 2000]%Z).
Proof.
  pose (earlier :=
          [ {| payload_of := dune_page [volume_row "usdc" 40] (VInt 1000);
               page_rows := [volume_row "usdc" 40];
               cursor := VInt 1000;
               next_offset := 1000 |};
            {| payload_of := dune_page [] (VStr "2000");
               page_rows := [];
               cursor := VStr "2000";
               next_offset := 2000 |} ]).
  assert (Hturns : Forall (turns example_runtime) earlier).
  { repeat constructor; cbn; discriminate. }
  exact (proj1 (proj2 (fetch_dune_result_rows_pagination example_runtime earlier Hturns))
           (dune_page [VStr "stray"; volume_row "usdt" 60] VNone)
           [volume_row "usdt" 60]
           [Ok (dune_page [volume_row "dai" 5] VNone)]
           eq_refl).
Defined.

(** ** The run *)

Section RunFacts.

Variable B : builtins.

Lemma bindM_lift_ok {A C : Type} (a : A) (k : A -> M C) s :
  bindM (lift (Ok a)) k s = k a s.
Proof. reflexivity. Qed.

Lemma bindM_lift_returns {A C : Type} (a : A) (k : A -> M C) s :
  bindM (lift_outcome (Returns a)) k s = k a s.
Proof. reflexivity. Qed.

Lemma bindM_modify {C : Type} (f : run_state -> run_state) (k : unit -> M C) s :
  bindM (modify f) k s = k tt (f s).
Proof. reflexivity. Qed.

Lemma bindM_gets {A C : Type} (f : run_state -> A) (k : A -> M C) s :
  bindM (gets f) k s = k (f s) s.
Proof. reflexivity. Qed.


Lemma bindM_log_true {C : Type} (handled : exn) (k : unit -> M C) s :
  bindM (log true handled) k s = k tt s.
Proof. reflexivity. Qed.

Lemma bindM_log_false {C : Type} (handled : exn) (k : unit -> M C) s :
  bindM (log false handled) k s = (Raises (UnicodeEncodeError (Some handled)), s).
Proof. reflexivity. Qed.

Lemma request_feishu_next w p call later s :
  webhook_pending s = call :: later ->
  request_feishu B w p s
  = (outcome_of (read_feishu_response B w (fst (perform_request call))),
     sent p (snd (perform_request call)) later s).
Proof.
  intros Hpending. unfold request_feishu. rewrite Hpending.
  destruct (perform_request call) as [response attempts]. reflexivity.
Qed.


(** [send_feishu_message], step by step: the card; if it is refused, the
    log line with its error, and then the text. *)
Lemma send_feishu_message_steps w r s :
  send_feishu_message B w r s
  = match webhook_pending s with
    | [] => (Blocked, sent (Card r) 1 [] s)
    | call1 :: later =>
        let s1 := sent (Card r) (snd (perform_request call1)) later s in
        match read_feishu_response B w (fst (perform_request call1)) with
        | Ok _ => (Returns tt, s1)
        | Raise e1 =>
            if error_printable w e1 then
              match later with
              | [] => (Blocked, sent (Text r) 1 [] s1)
              | call2 :: rest =>
                  let s2 := sent (Text r) (snd (perform_request call2)) rest s1 in
                  match read_feishu_response B w (fst (perform_request call2)) with
                  | Ok _ => (Returns tt, s2)
                  | Raise e2 => (Raises e2, s2)
                  end
              end
            else (Raises (UnicodeEncodeError (Some e1)), s1)
        end
    end.
Proof.
  unfold send_feishu_message, try_except. unfold bindM at 1.
  destruct (webhook_pending s) as [|call1 later] eqn:Hpending.
  - unfold request_feishu. rewrite Hpending. reflexivity.
  - rewrite (request_feishu_next w _ call1 later s Hpending). cbv zeta.
    destruct (read_feishu_response B w (fst (perform_request call1))) as [d1|e1];
      cbn [outcome_of]; [reflexivity|].
    destruct (error_printable w e1); [|reflexivity].
    rewrite bindM_log_true. unfold bindM.
    destruct later as [|call2 rest].
    + reflexivity.
    + rewrite (request_feishu_next w (Text r) call2 rest
                 (sent (Card r) (snd (perform_request call1)) (call2 :: rest) s)
                 eq_refl).
      destruct (read_feishu_response B w (fst (perform_request call2))) as [d2|e2];
        reflexivity.
Qed.


End RunFacts.



(** The same run with a USDC row in the query result succeeds: exit code
    0, a success card, and one more entry in the history file. *)
Example run_with_usdc_succeeds :
  let w := example_world rows_with_usdc in
  let metrics := supply_metrics (Some 0.4%float) in
  let no_change :=
    [("total_supply_usd", "N/A"); ("usdc_supply_usd", "N/A");
     ("usdc_supply_share", "N/A");
     ("usdc_transfer_volume_share_7d", "N/A")]%string in
  fst (run_report example_runtime w) = Returns 0%Z
  /\ posted (snd (run_report example_runtime w))
     = [Card (SuccessReport (window_iso w) metrics no_change [])]
  /\ history_file (snd (run_report example_runtime w))
     = Some (Json (VList [numbered_entry 1;
                          build_history_entry w (window_iso w) metrics []])).
Proof.
  repeat split; vm_compute; reflexivity.
Qed.


(** * Part IV: further properties of the program *)

(** ** Requests with retries *)

Lemma retry_loop_reads_window {A : Type} (call call' : nat -> attempt A) attempts_left :
  forall attempt_number,
    (forall i, (attempt_number <= i <= attempt_number + attempts_left)%nat ->
               call i = call' i) ->
    retry_loop attempts_left attempt_number call
    = retry_loop attempts_left attempt_number call'.
Proof.
  induction attempts_left as [|n IH]; intros attempt_number Hsame; cbn [retry_loop];
    rewrite <- (Hsame attempt_number) by lia; [reflexivity|].
  destruct (call attempt_number) as [response|exc]; [reflexivity|].
  destruct (should_retry_request_error exc); [|reflexivity].
  apply IH. intros i Hi. apply Hsame. lia.
Qed.

Lemma retry_loop_stops {A : Type} (call : nat -> attempt A) attempts_left :
  forall attempt_number,
    let '(result, calls) := retry_loop attempts_left attempt_number call in
    (attempt_number <= calls <= attempt_number + attempts_left)%nat
    /\ result = call calls
    /\ (forall i, (attempt_number <= i < calls)%nat ->
                  exists exc, call i = Fails exc /\ should_retry_request_error exc = true)
    /\ ((calls < attempt_number + attempts_left)%nat ->
        match result with
        | Responds _ => True
        | Fails exc => should_retry_request_error exc = false
        end).
Proof.
  induction attempts_left as [|n IH]; intros attempt_number; cbn [retry_loop].
  - destruct (call attempt_number) as [response|exc] eqn:E;
      [|destruct (should_retry_request_error exc) eqn:R];
      (split; [lia|]); (split; [symmetry; exact E|]); (split; [intros i Hi; lia|]);
      intros Hlt; try lia; exact I.
  - destruct (call attempt_number) as [response|exc] eqn:E;
      [|destruct (should_retry_request_error exc) eqn:R].
    + split; [lia|]. split; [symmetry; exact E|]. split; [intros i Hi; lia|].
      intros _. exact I.
    + specialize (IH (S attempt_number)).
      destruct (retry_loop n (S attempt_number) call) as [result calls].
      destruct IH as (Hrange & Hresult & Hbefore & Hearly).
      split; [lia|]. split; [exact Hresult|]. split.
      * intros i Hi. destruct (Nat.eq_dec i attempt_number) as [->|Hne].
        -- exists exc. split; assumption.
        -- apply Hbefore. lia.
      * intros Hlt. apply Hearly. lia.
    + split; [lia|]. split; [symmetry; exact E|]. split; [intros i Hi; lia|].
      intros _. exact R.
Qed.

(** X19.  [perform_request] calls the body at most three times.  Its
    result is that of the last call made; every call before it failed
    with an error that [should_retry_request_error] accepts, and when it
    stops before the third call the last call either answered or failed
    with an error that is not retried.  What a fourth call would give is
    never looked at.  An HTTP error with a status from 400 to 499 other
    than 429, or without a response, is raised after one call. *)
Theorem perform_request_attempts :
  forall (A : Type) (call : nat -> attempt A),
    (let '(result, calls) := perform_request call in
     (1 <= calls <= 3)%nat
     /\ result = call calls
     /\ (forall i, (1 <= i < calls)%nat ->
                   exists exc, call i = Fails exc /\ should_retry_request_error exc = true)
     /\ ((calls < 3)%nat ->
         match result with
         | Responds _ => True
         | Fails exc => should_retry_request_error exc = false
         end))
    /\ (forall call' : nat -> attempt A,
           call 1%nat = call' 1%nat -> call 2%nat = call' 2%nat ->
           call 3%nat = call' 3%nat ->
           perform_request call = perform_request call')
    /\ (forall status_code,
           call 1%nat = Fails (HTTPError status_code) ->
           match status_code with
           | Some code => (400 <= code < 500)%Z /\ code <> 429%Z
           | None => True
           end ->
           perform_request call = (Fails (HTTPError status_code), 1%nat)).
Proof.
  intros A call. split; [|split].
  - exact (retry_loop_stops call 2 1).
  - intros call' H1 H2 H3. apply retry_loop_reads_window.
    intros i Hi. unfold MAX_ATTEMPTS in Hi.
    assert (Hcases : i = 1%nat \/ i = 2%nat \/ i = 3%nat) by lia.
    destruct Hcases as [->|[->| ->]]; assumption.
  - intros status_code Hcall Hstatus.
    unfold perform_request. cbn [MAX_ATTEMPTS Nat.sub retry_loop]. rewrite Hcall.
    replace (should_retry_request_error (HTTPError status_code)) with false;
      [reflexivity|].
    destruct status_code as [code|]; [|reflexivity].
    cbn [should_retry_request_error]. symmetry. apply orb_false_iff.
    split; [apply Z.eqb_neq; lia|apply Z.leb_gt; lia].
Qed.

(** ** The run: what it can end with *)

Lemma try_except_returns {A : Type} (m : M A) h s a s' :
  m s = (Returns a, s') -> try_except m h s = (Returns a, s').
Proof. unfold try_except. intros ->. reflexivity. Qed.

Lemma try_except_raises {A : Type} (m : M A) h s e s' :
  m s = (Raises e, s') -> try_except m h s = h e s'.
Proof. unfold try_except. intros ->. reflexivity. Qed.

Lemma try_except_blocked {A : Type} (m : M A) h s s' :
  m s = (Blocked, s') -> try_except m h s = (Blocked, s').
Proof. unfold try_except. intros ->. reflexivity. Qed.

Lemma bindM_write_history {C : Type} w history (k : unit -> M C) s :
  bindM (write_history w history) k s
  = if history_encodable w (trimmed_history history)
    then k tt (set_history_file (save_history history) s)
    else (Raises (UnicodeEncodeError None), set_history_file (Some Blank) s).
Proof.
  unfold bindM, write_history.
  destruct (history_encodable w (trimmed_history history)); reflexivity.
Qed.

(** On a standard output that takes every text, every log line prints. *)
Lemma printable_all w text :
  (forall t, stdout_accepts w t = true) -> printable w text = true.
Proof.
  intros Hall. unfold printable. rewrite Hall. apply orb_true_r.
Qed.

Lemma error_printable_all w e :
  (forall t, stdout_accepts w t = true) -> error_printable w e = true.
Proof.
  intros Hall. destruct e; cbn [error_printable]; auto using printable_all.
Qed.

Lemma traceback_printable_all w :
  (forall t, stdout_accepts w t = true) ->
  forall e, traceback_printable w e = true.
Proof.
  intros Hall. fix IH 1. intros e.
  destruct e as [msg| | | | | | | | |[handled|]|msg]; cbn [traceback_printable];
    try (apply error_printable_all; exact Hall).
  apply IH.
Qed.

Section RunOutcomes.

Variable B : builtins.

Lemma bindM_lift_raise {A C : Type} (e : exn) (k : A -> M C) s :
  bindM (lift (Raise e)) k s = (Raises e, s).
Proof. reflexivity. Qed.

Lemma ends_with_zero_bind {A : Type} (m : M A) (k : A -> M Z) :
  (forall a, ends_with_zero (k a)) -> ends_with_zero (bindM m k).
Proof.
  intros Hk s. unfold bindM. destruct (m s) as [[a|e|] s'].
  - apply Hk.
  - right. left. exists e. reflexivity.
  - right. right. reflexivity.
Qed.

Lemma run_report_body_ends_with_zero w : ends_with_zero (run_report_body B w).
Proof.
  unfold run_report_body.
  repeat first
    [ apply ends_with_zero_bind; intros ?
    | match goal with
      | |- ends_with_zero (match ?x with _ => _ end) => destruct x
      end ].
  - intros s. left. reflexivity.
  - intros s. right. left. eexists. reflexivity.
Qed.

Lemma raises_only_log_failures_bind {A C : Type} (m : M A) (k : A -> M C) :
  raises_only_log_failures m ->
  (forall a, raises_only_log_failures (k a)) ->
  raises_only_log_failures (bindM m k).
Proof.
  intros Hm Hk s e. unfold bindM. specialize (Hm s).
  destruct (m s) as [[a|e'|] s']; cbn [fst] in *.
  - apply Hk.
  - intros H. injection H as <-. apply Hm. reflexivity.
  - discriminate.
Qed.

Lemma raises_only_log_failures_try {A : Type} (m : M A) (h : exn -> M A) :
  (forall e, raises_only_log_failures (h e)) ->
  raises_only_log_failures (try_except m h).
Proof.
  intros Hh s e. unfold try_except.
  destruct (m s) as [[a|e'|] s']; cbn [fst]; try discriminate.
  apply Hh.
Qed.

Lemma raises_only_log_failures_log prints handled :
  raises_only_log_failures (log prints handled).
Proof.
  intros s e. unfold log. destruct prints; cbn [fst]; [discriminate|].
  intros H. injection H as <-. eexists. reflexivity.
Qed.

Lemma report_failure_raises_only_log_failures w exc :
  raises_only_log_failures (report_failure B w exc).
Proof.
  unfold report_failure.
  apply raises_only_log_failures_bind;
    [apply raises_only_log_failures_log|intros _].
  apply raises_only_log_failures_bind;
    [apply raises_only_log_failures_log|intros _].
  apply raises_only_log_failures_bind; [intros s e H; discriminate H|intros missing].
  apply raises_only_log_failures_bind;
    [apply raises_only_log_failures_log|intros _].
  apply raises_only_log_failures_bind; [|intros _ s e H; discriminate H].
  apply raises_only_log_failures_try. intros notify_exc.
  apply raises_only_log_failures_bind;
    [apply raises_only_log_failures_log|intros _].
  apply raises_only_log_failures_log.
Qed.

Lemma report_failure_when_printing w exc s :
  (forall t, stdout_accepts w t = true) ->
  fst (report_failure B w exc s) = Returns 1%Z
  \/ fst (report_failure B w exc s) = Blocked.
Proof.
  intros Hall.
  assert (Hr : report_failure B w exc s
               = bindM (try_except (notify_failure B w exc)
                          (fun notify_exc : exn => ret tt))
                   (fun _ => ret 1%Z) s).
  { unfold report_failure.
    rewrite (error_printable_all w exc Hall), bindM_log_true.
    rewrite (traceback_printable_all w Hall exc), bindM_log_true, bindM_gets.
    replace (forallb (printable w) (missing_symbols s)) with true
      by (symmetry; apply forallb_forall; intros x _; apply printable_all, Hall).
    rewrite bindM_log_true. unfold bindM, try_except.
    destruct (notify_failure B w exc s) as [[u|e|] s']; try reflexivity.
    rewrite (error_printable_all w e Hall), (traceback_printable_all w Hall e).
    reflexivity. }
  rewrite Hr. unfold bindM, try_except.
  destruct (notify_failure B w exc s) as [[u|e|] s']; cbn [ret fst]; auto.
Qed.

(** When one of the first log lines of the handler does not print, the
    handler ends there: nothing is sent. *)
Lemma report_failure_log_fails w exc s :
  error_printable w exc && traceback_printable w exc
  && forallb (printable w) (missing_symbols s) = false ->
  report_failure B w exc s = (Raises (UnicodeEncodeError (Some exc)), s).
Proof.
  intros Hfails. unfold report_failure.
  destruct (error_printable w exc); [rewrite bindM_log_true|reflexivity].
  destruct (traceback_printable w exc); [rewrite bindM_log_true|reflexivity].
  rewrite bindM_gets.
  destruct (forallb (printable w) (missing_symbols s)); [discriminate|reflexivity].
Qed.

End RunOutcomes.

(** X3.  [run_report] is not free of exceptions.  No error of a stage of
    the run gets past its handler, but the first log lines of the handler
    stand outside its inner [try]: what [run_report] raises is the
    [UnicodeEncodeError] of a log line of the handler that did not print.
    When the body fails and the error message, the traceback or the
    missing symbols do not print, [run_report] raises and no failure
    notification is sent.  On a standard output that takes every text a
    run ends with exit code 0 or 1, or is still waiting for an answer it
    was not given.  A run whose missing symbols hold a character that the
    standard output cannot encode does raise. *)
Theorem run_report_raises_only_log_failures :
  forall B w,
    (forall e,
        fst (run_report B w) = Raises e ->
        exists handled, e = UnicodeEncodeError (Some handled))
    /\ (forall exc s',
           should_run w = true ->
           run_report_body B w (initial_state w) = (Raises exc, s') ->
           error_printable w exc && traceback_printable w exc
           && forallb (printable w) (missing_symbols s') = false ->
           run_report B w = (Raises (UnicodeEncodeError (Some exc)), s'))
    /\ ((forall text, stdout_accepts w text = true) ->
        fst (run_report B w) = Returns 0%Z
        \/ fst (run_report B w) = Returns 1%Z
        \/ fst (run_report B w) = Blocked)
    /\ fst (run_report example_runtime world_with_unprintable_symbol)
       = Raises (UnicodeEncodeError
                   (Some (WeeklyReportError
                            "Dune query result did not include usable USDC transfer volume data"))).
Proof.
  intros B w. split; [|split; [|split]].
  - intros e. unfold run_report.
    destruct (should_run w); cbn [negb]; [|discriminate].
    apply (raises_only_log_failures_try (run_report_body B w) (report_failure B w)
             (report_failure_raises_only_log_failures B w)).
  - intros exc s' Hrun Hbody Hfails. unfold run_report. rewrite Hrun. cbn [negb].
    rewrite (try_except_raises _ _ _ _ _ Hbody).
    apply report_failure_log_fails, Hfails.
  - intros Hall. unfold run_report.
    destruct (should_run w); cbn [negb]; [|left; reflexivity].
    pose proof (run_report_body_ends_with_zero B w (initial_state w)) as Hbody.
    destruct (run_report_body B w (initial_state w)) as [[z|e|] s'] eqn:E.
    + rewrite (try_except_returns _ _ _ _ _ E).
      cbn [fst] in *. destruct Hbody as [H|[[e H]|H]]; try discriminate.
      left. exact H.
    + rewrite (try_except_raises _ _ _ _ _ E).
      right. apply report_failure_when_printing, Hall.
    + rewrite (try_except_blocked _ _ _ _ E). right. right. reflexivity.
  - vm_compute. reflexivity.
Qed.

(** ** The webhook *)

(** X5.  What [request_feishu] accepts: the answer must be a mapping; its
    "code" decides when present (even when null), else its "StatusCode",
    else the answer is accepted; the accepted codes are [None], zero and
    the text "0".  A refused answer raises [WeeklyReportError]. *)
Theorem check_feishu_decides :
  forall B items,
    let response_code :=
      match dict_get "code" items with
      | Some c => c
      | None =>
          match dict_get "StatusCode" items with
          | Some c => c
          | None => VInt 0
          end
      end in
    (code_accepted response_code = true ->
     check_feishu B (VDict items) = Ok (VDict items))
    /\ (code_accepted response_code = false ->
        exists msg, check_feishu B (VDict items) = Raise (WeeklyReportError msg))
    /\ (dict_get "code" items = None -> dict_get "StatusCode" items = None ->
        check_feishu B (VDict items) = Ok (VDict items))
    /\ (dict_get "code" items = Some VNone ->
        check_feishu B (VDict items) = Ok (VDict items)).
Proof.
  intros B items response_code.
  assert (Hcode : dict_get_default "code"
                    (dict_get_default "StatusCode" (VInt 0) items) items
                  = response_code).
  { unfold dict_get_default, response_code.
    destruct (dict_get "code" items); reflexivity. }
  unfold check_feishu. rewrite Hcode.
  split; [intros ->; reflexivity|].
  split; [intros ->; eexists; reflexivity|].
  split.
  - intros H1 H2. unfold response_code. rewrite H1, H2. reflexivity.
  - intros H1. unfold response_code. rewrite H1. reflexivity.
Qed.

Lemma check_feishu_decides_witness :
  check_feishu example_runtime
    (VDict [("StatusCode", VInt 0); ("StatusMessage", VStr "success")]%string)
  = Ok (VDict [("StatusCode", VInt 0); ("StatusMessage", VStr "success")]%string)
  /\ exists msg,
      check_feishu example_runtime
        (VDict [("code", VInt 19001); ("msg", VStr "param invalid")]%string)
      = Raise (WeeklyReportError msg).
Proof.
  split.
  - apply (proj1 (check_feishu_decides example_runtime _)). reflexivity.
  - apply (proj1 (proj2 (check_feishu_decides example_runtime _))). reflexivity.
Defined.

(** ** The run: the history file and the webhook *)

Section RunEffects.

Variable B : builtins.









End RunEffects.


Section RunPosts.

Variable B : builtins.

Lemma perform_request_bound {A : Type} (call : nat -> attempt A) :
  (1 <= snd (perform_request call) <= 3)%nat.
Proof.
  pose proof (retry_loop_stops call 2 1) as H. unfold perform_request.
  cbn [MAX_ATTEMPTS Nat.sub].
  destruct (retry_loop 2 1 call) as [response attempts]. cbn [snd]. lia.
Qed.

Lemma posts_at_most_bind {A C : Type} (n n' : nat) (m : M A) (k : A -> M C) :
  posts_at_most n m -> (forall a, posts_at_most n' (k a)) ->
  posts_at_most (n + n') (bindM m k).
Proof.
  intros Hm Hk s. unfold bindM.
  destruct (Hm s) as (calls & requests & Hcalls & Hwire & Hn & Hw).
  destruct (m s) as [[a|e|] s']; cbn [snd] in *.
  - destruct (Hk a s') as (calls' & requests' & Hcalls' & Hwire' & Hn' & Hw').
    exists (calls ++ calls'), (requests ++ requests').
    rewrite Hcalls', Hwire', Hcalls, Hwire, <- !app_assoc, !length_app.
    repeat split; lia.
  - exists calls, requests. repeat split; trivial; lia.
  - exists calls, requests. repeat split; trivial; lia.
Qed.

Lemma posts_at_most_try {A : Type} (n n' : nat) (m : M A) (h : exn -> M A) :
  posts_at_most n m -> (forall e, posts_at_most n' (h e)) ->
  posts_at_most (n + n') (try_except m h).
Proof.
  intros Hm Hh s. unfold try_except.
  destruct (Hm s) as (calls & requests & Hcalls & Hwire & Hn & Hw).
  destruct (m s) as [[a|e|] s']; cbn [snd] in *.
  - exists calls, requests. repeat split; trivial; lia.
  - destruct (Hh e s') as (calls' & requests' & Hcalls' & Hwire' & Hn' & Hw').
    exists (calls ++ calls'), (requests ++ requests').
    rewrite Hcalls', Hwire', Hcalls, Hwire, <- !app_assoc, !length_app.
    repeat split; lia.
  - exists calls, requests. repeat split; trivial; lia.
Qed.

Lemma posts_nothing {A : Type} (m : M A) :
  (forall s, posted (snd (m s)) = posted s /\ wire (snd (m s)) = wire s) ->
  posts_at_most 0 m.
Proof.
  intros H s. destruct (H s) as [Hposted Hwire]. exists [], [].
  rewrite !app_nil_r. repeat split; trivial.
Qed.

Lemma posts_nothing_log prints handled : posts_at_most 0 (log prints handled).
Proof.
  apply posts_nothing. intros s. unfold log. destruct prints; split; reflexivity.
Qed.

Lemma posts_at_most_request w p : posts_at_most 1 (request_feishu B w p).
Proof.
  intros s. unfold request_feishu.
  destruct (webhook_pending s) as [|call later].
  - exists [p], [p]. repeat split; cbn; lia.
  - pose proof (perform_request_bound call) as Hbound.
    destruct (perform_request call) as [response attempts]. cbn [snd] in *.
    exists [p], (repeat p attempts). rewrite repeat_length.
    repeat split; cbn; lia.
Qed.

Lemma posts_at_most_send w r : posts_at_most 2 (send_feishu_message B w r).
Proof.
  unfold send_feishu_message. apply (posts_at_most_try 1 1).
  - apply (posts_at_most_bind 1 0); [apply posts_at_most_request|intros _].
    apply posts_nothing. intros s. split; reflexivity.
  - intros primary_error.
    apply (posts_at_most_bind 0 1); [apply posts_nothing_log|intros _].
    apply (posts_at_most_bind 1 0); [apply posts_at_most_request|intros _].
    apply posts_nothing. intros s. split; reflexivity.
Qed.

Lemma posts_at_most_notify w exc : posts_at_most 2 (notify_failure B w exc).
Proof.
  intros s. unfold notify_failure. rewrite bindM_gets.
  destruct (webhook_url s).
  - rewrite !bindM_gets. apply posts_at_most_send.
  - exists [], []. rewrite !app_nil_r. repeat split; cbn; lia.
Qed.

Lemma posts_at_most_report_failure w exc :
  posts_at_most 2 (report_failure B w exc).
Proof.
  unfold report_failure.
  apply (posts_at_most_bind 0 2); [apply posts_nothing_log|intros _].
  apply (posts_at_most_bind 0 2); [apply posts_nothing_log|intros _].
  apply (posts_at_most_bind 0 2);
    [apply posts_nothing; intros s; split; reflexivity|intros missing].
  apply (posts_at_most_bind 0 2); [apply posts_nothing_log|intros _].
  apply (posts_at_most_bind 2 0);
    [|intros _; apply posts_nothing; intros s; split; reflexivity].
  apply (posts_at_most_try 2 0); [apply posts_at_most_notify|intros notify_exc].
  apply (posts_at_most_bind 0 0); [apply posts_nothing_log|intros _].
  apply posts_nothing_log.
Qed.

Lemma posts_at_most_body w : posts_at_most 2 (run_report_body B w).
Proof.
  unfold run_report_body.
  repeat first
    [ lazymatch goal with
      | |- posts_at_most 2 (bindM (send_feishu_message _ _ _) _) =>
          apply (posts_at_most_bind 2 0); [apply posts_at_most_send|intros ?]
      | |- posts_at_most 2 (bindM (write_history _ _) _) =>
          apply (posts_at_most_bind 0 2);
          [apply posts_nothing; intros s; unfold write_history;
           destruct (history_encodable _ _); split; reflexivity|intros ?]
      | |- posts_at_most 2 (bindM _ _) =>
          apply (posts_at_most_bind 0 2);
          [apply posts_nothing; intros s; split; reflexivity|intros ?]
      end
    | match goal with
      | |- posts_at_most _ (match ?x with _ => _ end) => destruct x
      end ].
  - apply posts_nothing. intros s. split; reflexivity.
  - intros s. exists [], []. rewrite !app_nil_r. repeat split; cbn; lia.
Qed.

End RunPosts.

(** X7.  In a run [request_feishu] is called at most four times (the
    report and its text, then the failure report and its text), and as
    [perform_request] sends a payload at most three times, at most twelve
    POST requests go to the webhook.  Both bounds are reached by a run
    whose webhook answers every request with status 503. *)
Theorem run_report_posts_at_most_four :
  forall B w,
    (List.length (posted (snd (run_report B w))) <= 4)%nat
    /\ (List.length (wire (snd (run_report B w))) <= 12)%nat
    /\ List.length (posted (snd (run_report example_runtime world_with_webhook_down)))
       = 4%nat
    /\ List.length (wire (snd (run_report example_runtime world_with_webhook_down)))
       = 12%nat.
Proof.
  intros B w.
  assert (Hbound : (List.length (posted (snd (run_report B w))) <= 4)%nat
                   /\ (List.length (wire (snd (run_report B w))) <= 12)%nat).
  { unfold run_report. destruct (should_run w); cbn [negb]; [|cbn; lia].
    destruct (posts_at_most_try 2 2 (run_report_body B w) (report_failure B w)
                (posts_at_most_body B w) (posts_at_most_report_failure B w)
                (initial_state w))
      as (calls & requests & Hcalls & Hwire & Hn & Hw).
    rewrite Hcalls, Hwire. cbn [posted wire initial_state app]. lia. }
  split; [apply Hbound|]. split; [apply Hbound|].
  split; vm_compute; reflexivity.
Qed.

(** ** The run: what exit code 0 means *)

Section RunSuccess.

Variable B : builtins.

Lemma bindM_lift_outcome_raises {A C : Type} (e : exn) (k : A -> M C) s :
  bindM (lift_outcome (Raises e)) k s = (Raises e, s).
Proof. reflexivity. Qed.

Lemma bindM_lift_outcome_blocked {A C : Type} (k : A -> M C) s :
  bindM (lift_outcome Blocked) k s = (Blocked, s).
Proof. reflexivity. Qed.

Ltac open_lift E :=
  first [ rewrite bindM_lift_ok in E; cbv beta iota in E
        | rewrite bindM_lift_raise in E; discriminate E ].

Ltac open_outcome E :=
  first [ rewrite bindM_lift_returns in E; cbv beta iota in E
        | rewrite bindM_lift_outcome_raises in E; discriminate E
        | rewrite bindM_lift_outcome_blocked in E; discriminate E ].

(** The body of the [try] returns only after every stage has succeeded. *)
Lemma run_report_body_returns w z s' :
  run_report_body B w (initial_state w) = (Returns z, s') ->
  exists pegged_assets chart_points top_symbols usdc_supply total_supply rows
    totals share missing denominators history previous wow_map,
    fetch_defillama_stablecoins w = Ok pegged_assets
    /\ fetch_defillama_total_chart w = Ok chart_points
    /\ build_top20_symbols_and_usdc_supply B pegged_assets
       = Ok (top_symbols, usdc_supply)
    /\ get_total_supply_usd B chart_points = Ok total_supply
    /\ fst (fetch_dune_result_rows B (results_responses w)) = Returns rows
    /\ extract_dune_symbol_totals B rows = Ok totals
    /\ compute_dune_share B totals top_symbols = Ok (Some share, missing, denominators)
    /\ load_history (stored_history w) = Ok history
    /\ get_previous_metrics history = Ok previous
    /\ let metrics :=
         [("total_supply_usd", Some total_supply);
          ("usdc_supply_usd", Some usdc_supply);
          ("usdc_supply_share", Some (usdc_supply / total_supply)%float);
          ("usdc_transfer_volume_share_7d", Some share)]%string in
       let success := SuccessReport (window_iso w) metrics wow_map missing in
       build_wow_map B metrics previous = Ok wow_map
       /\ z = 0%Z
       /\ partial_metrics s' = metrics
       /\ missing_symbols s' = missing
       /\ history_file s'
          = save_history
              (history ++ [build_history_entry w (window_iso w) metrics missing])
       /\ (posted s' = [Card success] \/ posted s' = [Card success; Text success]).
Proof.
  intros E. unfold run_report_body in E.
  destruct (get_required_env w "DUNE_API_KEY") as [api_key|?]; open_lift E.
  destruct (id_text <- get_required_env w "DUNE_QUERY_ID" ;; py_int B (VStr id_text))
    as [query_id|?]; open_lift E.
  destruct (get_required_env w "FEISHU_WEBHOOK_URL") as [url|?]; open_lift E.
  rewrite bindM_modify in E.
  destruct (fetch_defillama_stablecoins w) as [pegged_assets|?] eqn:Hassets;
    open_lift E.
  destruct (fetch_defillama_total_chart w) as [chart_points|?] eqn:Hchart;
    open_lift E.
  destruct (build_top20_symbols_and_usdc_supply B pegged_assets)
    as [[top_symbols usdc_supply]|?] eqn:Htop; open_lift E.
  destruct (get_total_supply_usd B chart_points) as [total_supply|?] eqn:Htotal;
    open_lift E.
  rewrite !bindM_modify in E.
  destruct (execute_dune_query B w) as [execution_id|?]; open_lift E.
  destruct (wait_for_dune_execution B w) as [status|?|]; open_outcome E.
  destruct (fst (fetch_dune_result_rows B (results_responses w)))
    as [rows|?|] eqn:Hrows; open_outcome E.
  destruct (extract_dune_symbol_totals B rows) as [totals|?] eqn:Htotals;
    open_lift E.
  destruct (compute_dune_share B totals top_symbols)
    as [[[share missing] denominators]|?] eqn:Hshare; open_lift E.
  rewrite !bindM_modify in E.
  destruct share as [share|]; [|discriminate E].
  rewrite bindM_gets in E.
  cbn [history_file set_metric set_missing_symbols set_report_window
         set_webhook_url initial_state] in E.
  destruct (load_history (stored_history w)) as [history|?] eqn:Hload; open_lift E.
  destruct (get_previous_metrics history) as [previous|?] eqn:Hprevious;
    open_lift E.
  rewrite bindM_gets in E.
  cbn [partial_metrics set_metric set_missing_symbols set_report_window
         set_webhook_url initial_state dict_set String.eqb Ascii.eqb Bool.eqb] in E.
  match type of E with
  | context [build_wow_map B ?m previous] => set (metrics := m) in *
  end.
  destruct (build_wow_map B metrics previous) as [wow_map|?] eqn:Hwow; open_lift E.
  rewrite bindM_write_history in E.
  destruct (history_encodable w _); [|discriminate E].
  exists pegged_assets, chart_points, top_symbols, usdc_supply, total_supply, rows,
    totals, share, missing, denominators, history, previous, wow_map.
  do 9 (split; [first [assumption|reflexivity]|]).
  cbv zeta. fold metrics. split; [first [exact Hwow|reflexivity]|].
  unfold bindM in E. rewrite send_feishu_message_steps in E.
  cbn [webhook_pending set_history_file set_metric set_missing_symbols
         set_report_window set_webhook_url initial_state] in E.
  destruct (webhook_responses w) as [|answer1 [|answer2 rest]]; cbv zeta in E;
    repeat match type of E with
           | context [match ?x with Ok _ => _ | Raise _ => _ end] => destruct x
           | context [if ?b then _ else _] => destruct b
           end;
    try discriminate E;
    injection E as <- <-;
    (split; [reflexivity|]); (split; [reflexivity|]); (split; [reflexivity|]);
    (split; [reflexivity|]); [left|left|right]; reflexivity.
Qed.

Lemma report_failure_not_zero w exc s :
  fst (report_failure B w exc s) <> Returns 0%Z.
Proof.
  unfold report_failure, bindM, log, try_except, gets, ret.
  destruct (error_printable w exc); [|discriminate].
  destruct (traceback_printable w exc); [|discriminate].
  destruct (forallb (printable w) (missing_symbols s)); [|discriminate].
  destruct (notify_failure B w exc s) as [[u|e|] s']; try discriminate.
  destruct (error_printable w e); [|discriminate].
  destruct (traceback_printable w e); discriminate.
Qed.


End RunSuccess.

(** X8.  A run that ends with exit code 0 inside its window went through
    every stage: both providers answered, the query result held a USDC
    volume, the history loaded, and the webhook accepted the report (as
    a card, or as text after the card was refused).  All four metrics
    are then available, the supply share is the USDC supply over the
    total supply, and the history file holds the old history with the
    entry of this run appended. *)
Theorem run_report_exit_zero :
  forall B w,
    should_run w = true ->
    fst (run_report B w) = Returns 0%Z ->
    exists pegged_assets chart_points top_symbols usdc_supply total_supply rows
      totals share missing denominators history previous wow_map,
      fetch_defillama_stablecoins w = Ok pegged_assets
      /\ fetch_defillama_total_chart w = Ok chart_points
      /\ build_top20_symbols_and_usdc_supply B pegged_assets
         = Ok (top_symbols, usdc_supply)
      /\ get_total_supply_usd B chart_points = Ok total_supply
      /\ fst (fetch_dune_result_rows B (results_responses w)) = Returns rows
      /\ extract_dune_symbol_totals B rows = Ok totals
      /\ compute_dune_share B totals top_symbols
         = Ok (Some share, missing, denominators)
      /\ load_history (stored_history w) = Ok history
      /\ get_previous_metrics history = Ok previous
      /\ let metrics :=
           [("total_supply_usd", Some total_supply);
            ("usdc_supply_usd", Some usdc_supply);
            ("usdc_supply_share", Some (usdc_supply / total_supply)%float);
            ("usdc_transfer_volume_share_7d", Some share)]%string in
         let success := SuccessReport (window_iso w) metrics wow_map missing in
         build_wow_map B metrics previous = Ok wow_map
         /\ partial_metrics (snd (run_report B w)) = metrics
         /\ missing_symbols (snd (run_report B w)) = missing
         /\ history_file (snd (run_report B w))
            = save_history
                (history ++ [build_history_entry w (window_iso w) metrics missing])
         /\ (posted (snd (run_report B w)) = [Card success]
             \/ posted (snd (run_report B w)) = [Card success; Text success]).
Proof.
  intros B w Hrun Hzero. unfold run_report in *. rewrite Hrun in *.
  cbn [negb] in *.
  destruct (run_report_body B w (initial_state w)) as [[z|e|] s'] eqn:E.
  - rewrite (try_except_returns _ _ _ _ _ E) in *. cbn [fst snd] in *.
    destruct (run_report_body_returns B w z s' E)
      as (pegged_assets & chart_points & top_symbols & usdc_supply & total_supply
          & rows & totals & share & missing & denominators & history & previous
          & wow_map & H1 & H2 & H3 & H4 & H5 & H6 & H7 & H8 & H9 & H10 & _ & H11).
    exists pegged_assets, chart_points, top_symbols, usdc_supply, total_supply, rows,
      totals, share, missing, denominators, history, previous, wow_map.
    do 9 (split; [first [assumption|reflexivity]|]).
    split; [exact H10|exact H11].
  - rewrite (try_except_raises _ _ _ _ _ E) in Hzero.
    exfalso. exact (report_failure_not_zero B w e s' Hzero).
  - rewrite (try_except_blocked _ _ _ _ E) in Hzero. discriminate.
Qed.

Lemma run_report_exit_zero_witness :
  exists history,
    load_history (stored_history (example_world rows_with_usdc)) = Ok history
    /\ history_file (snd (run_report example_runtime (example_world rows_with_usdc)))
       = save_history
           (history
            ++ [build_history_entry (example_world rows_with_usdc)
                  (window_iso (example_world rows_with_usdc))
                  (supply_metrics (Some 0.4%float)) []]).
Proof.
  destruct (run_report_exit_zero example_runtime (example_world rows_with_usdc)
              eq_refl)
    as (pegged_assets & chart_points & top_symbols & usdc_supply & total_supply
        & rows & totals & share & missing & denominators & history & previous
        & wow_map & _ & _ & _ & _ & _ & _ & _ & Hload & _ & _ & _ & _ & Hfile & _).
  - vm_compute. reflexivity.
  - exists history. split; [exact Hload|].
    vm_compute in Hload. injection Hload as <-.
    vm_compute. reflexivity.
Defined.



(** ** Failed runs *)

Section RunFailure.

Variable B : builtins.

Lemma keeps_webhook_url_bind {A C : Type} (m : M A) (k : A -> M C) :
  keeps_webhook_url m -> (forall a, keeps_webhook_url (k a)) ->
  keeps_webhook_url (bindM m k).
Proof.
  intros Hm Hk s Hs. unfold bindM. specialize (Hm s Hs).
  destruct (m s) as [[a|e|] s']; cbn [snd] in *; try exact Hm.
  apply Hk, Hm.
Qed.

Lemma keeps_webhook_url_send w r : keeps_webhook_url (send_feishu_message B w r).
Proof.
  intros s Hs. rewrite send_feishu_message_steps.
  destruct (webhook_pending s) as [|call1 [|call2 rest]]; cbv zeta;
    repeat match goal with
           | |- context [match ?x with Ok _ => _ | Raise _ => _ end] => destruct x
           | |- context [if ?b then _ else _] => destruct b
           end; exact Hs.
Qed.

Lemma keeps_webhook_url_body w : keeps_webhook_url (run_report_body B w).
Proof.
  unfold run_report_body.
  repeat first
    [ lazymatch goal with
      | |- keeps_webhook_url (bindM (send_feishu_message _ _ _) _) =>
          apply keeps_webhook_url_bind; [apply keeps_webhook_url_send|intros ?]
      | |- keeps_webhook_url (bindM (write_history _ _) _) =>
          apply keeps_webhook_url_bind;
          [intros s Hs; unfold write_history;
           destruct (history_encodable _ _); exact Hs|intros ?]
      | |- keeps_webhook_url (bindM _ _) =>
          apply keeps_webhook_url_bind;
          [intros s Hs; first [exact Hs|discriminate]|intros ?]
      end
    | match goal with
      | |- keeps_webhook_url (match ?x with _ => _ end) => destruct x
      end ];
    intros s Hs; exact Hs.
Qed.

(** The handler, when it ends with exit code 1 and there is a webhook
    address: the failure card went out, then at most its text. *)
Lemma report_failure_returns w exc s :
  fst (report_failure B w exc s) = Returns 1%Z ->
  webhook_url s <> None ->
  let failure :=
    FailureReport exc (partial_metrics s) (report_window s) (missing_symbols s) in
  (posted (snd (report_failure B w exc s)) = posted s ++ [Card failure]
   \/ posted (snd (report_failure B w exc s)) = posted s ++ [Card failure; Text failure])
  /\ partial_metrics (snd (report_failure B w exc s)) = partial_metrics s
  /\ missing_symbols (snd (report_failure B w exc s)) = missing_symbols s
  /\ report_window (snd (report_failure B w exc s)) = report_window s
  /\ history_file (snd (report_failure B w exc s)) = history_file s.
Proof.
  intros Hexit Hurl failure.
  remember (report_failure B w exc s) as r eqn:Hr.
  unfold report_failure in Hr.
  destruct (error_printable w exc);
    [rewrite bindM_log_true in Hr|rewrite bindM_log_false in Hr; subst r; discriminate].
  destruct (traceback_printable w exc);
    [rewrite bindM_log_true in Hr|rewrite bindM_log_false in Hr; subst r; discriminate].
  rewrite bindM_gets in Hr.
  destruct (forallb (printable w) (missing_symbols s));
    [rewrite bindM_log_true in Hr|rewrite bindM_log_false in Hr; subst r; discriminate].
  unfold bindM at 1, try_except, notify_failure in Hr.
  rewrite bindM_gets in Hr.
  destruct (webhook_url s) as [url|]; [|contradiction].
  rewrite !bindM_gets, send_feishu_message_steps in Hr. fold failure in Hr.
  cbv zeta in Hr.
  destruct (webhook_pending s) as [|call1 later]; [subst r; discriminate|].
  destruct (read_feishu_response B w (fst (perform_request call1))) as [d1|e1].
  { subst r. repeat split. left. reflexivity. }
  destruct (error_printable w e1).
  - destruct later as [|call2 rest]; [subst r; discriminate|].
    destruct (read_feishu_response B w (fst (perform_request call2))) as [d2|e2].
    + subst r. unfold ret.
      cbn [snd sent posted partial_metrics missing_symbols report_window
             history_file].
      rewrite <- app_assoc. repeat split. right. reflexivity.
    + unfold bindM, log in Hr.
      destruct (error_printable w e2); [|subst r; discriminate].
      destruct (traceback_printable w e2); [|subst r; discriminate].
      subst r. unfold ret.
      cbn [snd sent posted partial_metrics missing_symbols report_window
             history_file].
      rewrite <- app_assoc. repeat split. right. reflexivity.
  - unfold bindM, log in Hr. cbn [error_printable] in Hr.
    destruct (traceback_printable w (UnicodeEncodeError (Some e1)));
      [|subst r; discriminate].
    subst r. repeat split. left. reflexivity.
Qed.

End RunFailure.

(** X22.  A run that ends with exit code 1 while a webhook address is
    configured has called the webhook with the failure card.  The card
    carries the error that the body of the run raised and the metrics,
    window and missing symbols gathered until then.  [request_feishu] is
    called at most once more after it, with its text rendering, and the
    handler changes neither the metrics nor the history file. *)
Theorem run_report_exit_one :
  forall B w,
    fst (run_report B w) = Returns 1%Z ->
    get_optional_env w "FEISHU_WEBHOOK_URL" <> None ->
    exists error s',
      run_report_body B w (initial_state w) = (Raises error, s')
      /\ let failure :=
           FailureReport error (partial_metrics s') (report_window s')
             (missing_symbols s') in
         (posted (snd (run_report B w)) = posted s' ++ [Card failure]
          \/ posted (snd (run_report B w)) = posted s' ++ [Card failure; Text failure])
         /\ partial_metrics (snd (run_report B w)) = partial_metrics s'
         /\ history_file (snd (run_report B w)) = history_file s'.
Proof.
  intros B w Hexit Hurl. unfold run_report in *.
  destruct (should_run w); cbn [negb] in *; [|discriminate Hexit].
  pose proof (run_report_body_ends_with_zero B w (initial_state w)) as Hzero.
  pose proof (keeps_webhook_url_body B w (initial_state w) Hurl) as Hkept.
  destruct (run_report_body B w (initial_state w)) as [[z|e|] s'] eqn:E.
  - rewrite (try_except_returns _ _ _ _ _ E) in *. cbn [fst] in *.
    destruct Hzero as [Hz|[[e Hz]|Hz]]; congruence.
  - rewrite (try_except_raises _ _ _ _ _ E) in *. cbn [snd] in Hkept.
    exists e, s'. split; [reflexivity|].
    destruct (report_failure_returns B w e s' Hexit Hkept)
      as (Hposted & Hmetrics & _ & _ & Hfile).
    cbv zeta. split; [exact Hposted|]. split; [exact Hmetrics|exact Hfile].
  - rewrite (try_except_blocked _ _ _ _ E) in Hexit. discriminate Hexit.
Qed.

Lemma run_report_exit_one_witness :
  exists s',
    run_report_body example_runtime (example_world rows_without_usdc)
      (initial_state (example_world rows_without_usdc))
    = (Raises (WeeklyReportError
                 "Dune query result did not include usable USDC transfer volume data"),
       s')
    /\ posted (snd (run_report example_runtime (example_world rows_without_usdc)))
       = [Card usdc_missing_report].
Proof.
  destruct (run_report_exit_one example_runtime (example_world rows_without_usdc))
    as (error & s' & Hbody & Hposted & _).
  - vm_compute. reflexivity.
  - vm_compute. discriminate.
  - exists s'. vm_compute in Hbody. injection Hbody as <- <-.
    split; vm_compute; reflexivity.
Defined.

(** ** Polling the execution status *)

Section PollingFacts.

Variable B : builtins.

Lemma read_status_some status_payload p :
  read_status B status_payload = Ok (Some p) ->
  p = status_payload
  /\ exists raw_state,
      py_get status_payload "state" = Ok raw_state
      /\ is_success_state (py_str B (py_or raw_state (VStr ""))) = true.
Proof.
  unfold read_status.
  destruct (py_get status_payload "state") as [raw_state|e]; cbn [bind];
    [|discriminate].
  destruct (is_success_state _) eqn:Hsuccess.
  - intros H. injection H as <-. split; [reflexivity|]. eauto.
  - destruct (is_failure_state _).
    + destruct (format_dune_error B status_payload); discriminate.
    + destruct (py_get status_payload "is_execution_finished") as [finished|e];
        cbn [bind]; [|discriminate].
      destruct (truthy finished); discriminate.
Qed.

Lemma poll_loop_returns attempts :
  forall responses status,
    poll_loop B attempts responses = Returns status ->
    In (Ok status) (firstn attempts responses)
    /\ read_status B status = Ok (Some status).
Proof.
  induction attempts as [|attempts IH]; intros responses status H;
    [discriminate|].
  destruct responses as [|response later]; [discriminate|].
  cbn [poll_loop firstn] in *.
  destruct response as [status_payload|e]; cbn [bind] in H; [|discriminate].
  destruct (read_status B status_payload) as [[p|]|e] eqn:Hread; try discriminate.
  - injection H as <-.
    destruct (read_status_some _ _ Hread) as [-> _].
    split; [left; reflexivity|exact Hread].
  - destruct (IH later status H) as [Hin Hok]. split; [right; exact Hin|exact Hok].
Qed.

Lemma poll_loop_times_out attempts :
  forall responses,
    (attempts <= List.length responses)%nat ->
    (forall r, In r (firstn attempts responses) ->
               exists p, r = Ok p /\ read_status B p = Ok None) ->
    poll_loop B attempts responses = Raises timed_out.
Proof.
  induction attempts as [|attempts IH]; intros responses Hlen Hpending;
    [reflexivity|].
  destruct responses as [|response later]; [cbn in Hlen; lia|].
  cbn [poll_loop firstn] in *.
  destruct (Hpending response (or_introl eq_refl)) as (p & -> & Hread).
  cbn [bind]. rewrite Hread.
  apply IH; [cbn in Hlen; lia|].
  intros r Hr. apply Hpending. right. exact Hr.
Qed.

Lemma poll_loop_reads_no_further attempts :
  forall responses extra,
    (attempts <= List.length responses)%nat ->
    poll_loop B attempts (responses ++ extra) = poll_loop B attempts responses.
Proof.
  induction attempts as [|attempts IH]; intros responses extra Hlen;
    [reflexivity|].
  destruct responses as [|response later]; [cbn in Hlen; lia|].
  cbn [poll_loop app].
  destruct (status_payload <- response ;; read_status B status_payload)
    as [[p|]|e]; try reflexivity.
  apply IH. cbn in Hlen. lia.
Qed.

End PollingFacts.

(** X10.  [wait_for_dune_execution] returns a status payload only when
    that payload is one of the first 120 answers and its state is
    QUERY_STATE_COMPLETED or QUERY_STATE_COMPLETED_PARTIAL.  When the
    first 120 answers all say the query is still running it fails with
    the time-out error, and an answer after the 120th is never read. *)
Theorem wait_for_dune_execution_bounded :
  forall B w,
    (forall status,
        wait_for_dune_execution B w = Returns status ->
        In (Ok status) (firstn 120 (status_responses w))
        /\ exists raw_state,
            py_get status "state" = Ok raw_state
            /\ is_success_state (py_str B (py_or raw_state (VStr ""))) = true)
    /\ ((120 <= List.length (status_responses w))%nat ->
        (forall r, In r (firstn 120 (status_responses w)) ->
                   exists p, r = Ok p /\ read_status B p = Ok None) ->
        wait_for_dune_execution B w = Raises timed_out)
    /\ (forall responses extra,
           (120 <= List.length responses)%nat ->
           poll_loop B DUNE_MAX_POLLS (responses ++ extra)
           = poll_loop B DUNE_MAX_POLLS responses).
Proof.
  intros B w. unfold wait_for_dune_execution, DUNE_MAX_POLLS.
  split; [|split].
  - intros status H. destruct (poll_loop_returns B _ _ _ H) as [Hin Hread].
    split; [exact Hin|].
    destruct (read_status_some B _ _ Hread) as [_ Hstate]. exact Hstate.
  - apply poll_loop_times_out.
  - apply poll_loop_reads_no_further.
Qed.

Lemma wait_for_dune_execution_bounded_witness :
  wait_for_dune_execution example_runtime
    {| should_run := true;
       run_time_iso := "2026-01-05T07:00:00+08:00";
       window_iso := ("2025-12-29", "2026-01-04")%string;
       getenv := example_env;
       stablecoins_response := Raise (RequestError "unused");
       chart_response := Raise (RequestError "unused");
       execute_response := Raise (RequestError "unused");
       status_responses := repeat (Ok still_running) 120 ++ [Ok example_status];
       results_responses := [];
       webhook_responses := [];
       request_error_text := fun _ => "request failed"%string;
       stored_history := None;
       history_encodable := fun _ => true;
       stdout_accepts := fun _ => true |}
  = Raises timed_out.
Proof.
  apply (proj1 (proj2 (wait_for_dune_execution_bounded example_runtime _))).
  - cbn [status_responses]. rewrite length_app, repeat_length. cbn. lia.
  - cbn [status_responses]. intros r Hr.
    rewrite firstn_app, repeat_length, Nat.sub_diag, firstn_O, app_nil_r in Hr.
    apply In_firstn_of, repeat_spec in Hr. subst r.
    exists still_running. split; reflexivity.
Defined.

(** ** The total supply *)

Lemma not_leb_ltb x y :
  is_nan x = false -> is_nan y = false ->
  (x <=? y)%float = false -> (y <? x)%float = true.
Proof.
  intros Hx Hy H. apply ltb_key; trivial.
  assert (K : ~ key_le (fkey x) (fkey y)).
  { intros K. apply leb_key in K; trivial. congruence. }
  key_cases. lia.
Qed.

Lemma last_item_last earlier latest_point :
  last_item (earlier ++ [latest_point]) = Ok latest_point.
Proof.
  unfold last_item.
  destruct (earlier ++ [latest_point]) as [|x l] eqn:E.
  - apply app_eq_nil in E. destruct E as [_ E]. discriminate.
  - rewrite <- E, last_last. reflexivity.
Qed.

(** X11.  [get_total_supply_usd] reads the last chart point only, and a
    total it returns is never zero or negative: it is positive unless it
    is NaN, which the guard lets through.  The chart it is given by
    [fetch_defillama_total_chart] is never empty. *)
Theorem get_total_supply_usd_last_and_positive :
  forall B,
    (forall earlier latest_point,
        get_total_supply_usd B (earlier ++ [latest_point])
        = get_total_supply_usd B [latest_point])
    /\ (forall chart_points total,
           get_total_supply_usd B chart_points = Ok total ->
           (total <=? 0)%float = false
           /\ (is_nan total = false -> (0 <? total)%float = true))
    /\ (forall w chart_points,
           fetch_defillama_total_chart w = Ok chart_points ->
           chart_points <> [] /\ chart_response w = Ok (VList chart_points)).
Proof.
  intros B. split; [|split].
  - intros earlier latest_point. unfold get_total_supply_usd.
    rewrite last_item_last. reflexivity.
  - intros chart_points total. unfold get_total_supply_usd.
    destruct (last_item chart_points) as [latest_point|e]; cbn [bind];
      [|discriminate].
    destruct (py_get latest_point "totalCirculating")
      as [total_circulating|e]; cbn [bind]; [|discriminate].
    destruct (isinstance_dict total_circulating); cbn [negb]; [|discriminate].
    destruct (py_get total_circulating "peggedUSD") as [value|e]; cbn [bind];
      [|discriminate].
    assert (Hguard : forall t,
               (if (t <=? 0)%float
                then Raise (WeeklyReportError "DefiLlama total supply is not positive")
                else Ok t) = Ok total ->
               (total <=? 0)%float = false
               /\ (is_nan total = false -> (0 <? total)%float = true)).
    { intros t H. destruct (t <=? 0)%float eqn:Hle; [discriminate|].
      injection H as <-. split; [exact Hle|].
      intros Hnan. apply not_leb_ltb; trivial. }
    destruct value; try discriminate;
      (destruct (py_float B _) as [t|e]; cbn [bind]; [apply Hguard|discriminate]).
  - intros w chart_points. unfold fetch_defillama_total_chart.
    destruct (chart_response w) as [payload|e]; cbn [bind]; [|discriminate].
    destruct payload as [| | | | |[|point points]|]; try discriminate.
    intros H. injection H as <-. split; [discriminate|reflexivity].
Qed.

Lemma get_total_supply_usd_last_and_positive_witness :
  (1000000000 <=? 0)%float = false
  /\ (is_nan 1000000000 = false -> (0 <? 1000000000)%float = true).
Proof.
  apply (proj1 (proj2 (get_total_supply_usd_last_and_positive example_runtime))
           example_chart).
  reflexivity.
Defined.

(** ** The partition of the top symbols *)

Lemma partition_symbols_missing totals symbols :
  forall missing denominator_totals,
    fst (partition_symbols totals symbols missing denominator_totals)
    = missing ++ filter (fun s => negb (dict_mem s totals)) symbols.
Proof.
  induction symbols as [|symbol rest IH]; intros missing denominator_totals.
  - cbn. rewrite app_nil_r. reflexivity.
  - cbn [partition_symbols filter]. unfold dict_mem at 1.
    destruct (dict_get symbol totals); cbn [negb]; rewrite IH.
    + reflexivity.
    + rewrite <- app_assoc. reflexivity.
Qed.

Lemma partition_symbols_agree totals totals' symbols :
  (forall s, In s symbols -> dict_get s totals = dict_get s totals') ->
  forall missing denominator_totals,
    partition_symbols totals symbols missing denominator_totals
    = partition_symbols totals' symbols missing denominator_totals.
Proof.
  induction symbols as [|symbol rest IH]; intros Hagree missing denominator_totals.
  - reflexivity.
  - cbn [partition_symbols]. rewrite <- (Hagree symbol (or_introl eq_refl)).
    destruct (dict_get symbol totals); apply IH; intros s Hs; apply Hagree;
      right; exact Hs.
Qed.

(** X12.  What [compute_dune_share] returns beside the share: the missing
    symbols are the top symbols without an entry in the totals, in the
    order of the top list, and the denominator holds exactly the top
    symbols that have one, each with its total.  The only error it can
    raise is the zero-denominator [WeeklyReportError]. *)
Theorem compute_dune_share_partition :
  forall B totals symbols,
    (forall share missing denominator_totals,
        compute_dune_share B totals symbols = Ok (share, missing, denominator_totals) ->
        missing = filter (fun s => negb (dict_mem s totals)) symbols
        /\ (forall k,
               dict_get k denominator_totals
               = if set_mem k symbols then dict_get k totals else None)
        /\ (share = None <-> dict_get "usdc" denominator_totals = None))
    /\ (forall e,
           compute_dune_share B totals symbols = Raise e ->
           e = WeeklyReportError "Dune denominator volume is zero").
Proof.
  intros B totals symbols. unfold compute_dune_share.
  pose proof (partition_symbols_missing totals symbols [] []) as Hmissing.
  pose proof (fun k => partition_symbols_get totals symbols [] [] k) as Hget.
  destruct (partition_symbols totals symbols [] []) as [missing0 denominators0].
  cbn [fst snd app] in *. split.
  - intros share missing denominator_totals H.
    assert (Hboth : missing = missing0 /\ denominator_totals = denominators0
                    /\ (share = None <-> dict_get "usdc" denominators0 = None)).
    { destruct (dict_get "usdc" denominators0) as [usdc_total|].
      - destruct (float_sum B (dict_values denominators0) <=? 0)%float;
          [discriminate|].
        injection H as <- <- <-. repeat split; discriminate.
      - injection H as <- <- <-. repeat split; reflexivity. }
    destruct Hboth as (-> & -> & Hshare).
    split; [exact Hmissing|]. split; [|exact Hshare].
    intros k. rewrite Hget.
    destruct (set_mem k symbols); [destruct (dict_get k totals)|]; reflexivity.
  - intros e H. destruct (dict_get "usdc" denominators0); [|discriminate].
    destruct (float_sum B (dict_values denominators0) <=? 0)%float;
      [|discriminate].
    injection H as <-. reflexivity.
Qed.

Lemma compute_dune_share_partition_witness :
  ["dai"%string] = filter (fun s => negb (dict_mem s [("usdc", 40); ("usdt", 60)]%string%float))
                     ["usdt"; "dai"; "usdc"]%string.
Proof.
  apply (proj1 (compute_dune_share_partition example_runtime
                  [("usdc", 40); ("usdt", 60)]%string%float
                  ["usdt"; "dai"; "usdc"]%string)
           (Some 0.4%float) ["dai"%string]
           [("usdt", 60); ("usdc", 40)]%string%float).
  vm_compute. reflexivity.
Defined.

(** X13.  Volumes of symbols outside the top list do not count: two
    totals that agree on every top symbol give the same share, the same
    missing symbols and the same denominator, or the same error. *)
Theorem compute_dune_share_ignores_other_symbols :
  forall B totals totals' symbols,
    (forall s, In s symbols -> dict_get s totals = dict_get s totals') ->
    compute_dune_share B totals symbols = compute_dune_share B totals' symbols.
Proof.
  intros B totals totals' symbols Hagree. unfold compute_dune_share.
  rewrite (partition_symbols_agree totals totals' symbols Hagree). reflexivity.
Qed.

Lemma compute_dune_share_ignores_other_symbols_witness :
  compute_dune_share example_runtime
    [("usdc", 40); ("usdt", 60); ("frax", 900)]%string%float ["usdc"; "usdt"]%string
  = compute_dune_share example_runtime
      [("usdt", 60); ("usdc", 40)]%string%float ["usdc"; "usdt"]%string.
Proof.
  apply compute_dune_share_ignores_other_symbols.
  intros s [<-|[<-|[]]]; reflexivity.
Defined.

(** ** Normalized symbols *)









(** ** The keys of the volume totals *)

Section DictKeys.

Context {V : Type}.




End DictKeys.

Section TotalsKeys.

Variable B : builtins.




End TotalsKeys.



(** ** History: the previous metrics *)

Lemma get_previous_metrics_total history :
  forallb isinstance_dict history = true ->
  exists metrics,
    get_previous_metrics history = Ok metrics
    /\ (metrics = VNone \/ isinstance_dict metrics = true).
Proof.
  intros Hdicts. unfold get_previous_metrics.
  destruct history as [|entry rest]; [eauto|].
  assert (Hlast : isinstance_dict (last (entry :: rest) VNone) = true).
  { rewrite forallb_forall in Hdicts. apply Hdicts.
    destruct (exists_last (l := entry :: rest)) as (l' & x & Heq); [discriminate|].
    rewrite Heq, last_last. apply in_or_app. right. left. reflexivity. }
  destruct (last (entry :: rest) VNone) as [| | | | | |items]; try discriminate.
  clear Hlast. cbn [py_get bind].
  destruct (isinstance_dict
              match dict_get "metrics" items with Some x => x | None => VNone end)
    eqn:E; eexists; (split; [reflexivity|]);
    [right; exact E|left; reflexivity].
Qed.

(** X15.  Whatever the history file holds, a history that [load_history]
    returns holds mappings only, so that [get_previous_metrics] never
    fails on it: it gives the metrics mapping of the last entry, or
    [None]. *)
Theorem loaded_history_has_previous_metrics :
  forall file history,
    load_history file = Ok history ->
    forallb isinstance_dict history = true
    /\ exists metrics,
        get_previous_metrics history = Ok metrics
        /\ (metrics = VNone \/ isinstance_dict metrics = true).
Proof.
  intros file history Hload.
  assert (Hdicts : forallb isinstance_dict history = true).
  { unfold load_history in Hload.
    destruct file as [[| | |v]|]; try discriminate;
      try (injection Hload as <-; reflexivity).
    destruct v; try discriminate. injection Hload as <-.
    apply forallb_filter. }
  split; [exact Hdicts|apply get_previous_metrics_total, Hdicts].
Qed.

Lemma loaded_history_has_previous_metrics_witness :
  exists metrics,
    get_previous_metrics [numbered_entry 7] = Ok metrics
    /\ (metrics = VNone \/ isinstance_dict metrics = true).
Proof.
  apply (loaded_history_has_previous_metrics
           (Some (Json (VList [VInt 1; numbered_entry 7; VStr "corrupt"])))
           [numbered_entry 7]).
  reflexivity.
Defined.

Section EntryRoundTrip.

Variable B : builtins.

Lemma dict_get_metrics_value metrics metric_name :
  match metrics_value metrics with
  | VDict items =>
      dict_get metric_name items
      = option_map (fun v => match v with Some f => VFloat f | None => VNone end)
          (dict_get metric_name metrics)
  | _ => False
  end.
Proof.
  unfold metrics_value. induction metrics as [|[k v] metrics IH]; [reflexivity|].
  cbn [map fst snd dict_get]. destruct (String.eqb metric_name k); [reflexivity|].
  exact IH.
Qed.

Lemma previous_value_of_saved metrics metric_name :
  previous_value B (metrics_value metrics) metric_name
  = Ok (metric_get metrics metric_name).
Proof.
  pose proof (dict_get_metrics_value metrics metric_name) as H.
  unfold previous_value, metric_get. unfold metrics_value in *.
  rewrite H. destruct (dict_get metric_name metrics) as [[f|]|]; reflexivity.
Qed.

End EntryRoundTrip.

(** ** Week-over-week texts *)

Section WowMap.

Variable B : builtins.

Lemma previous_value_raises previous_metrics metric_name e :
  previous_value B previous_metrics metric_name = Raise e ->
  e = OverflowError /\ isinstance_dict previous_metrics = true.
Proof.
  unfold previous_value. destruct previous_metrics as [| | | | | |items]; try discriminate.
  destruct (dict_get metric_name items) as [raw|]; [|discriminate].
  destruct raw as [|b|z|f|s|l|d]; cbn [py_float]; try discriminate.
  - unfold int_to_float. destruct (is_infinity _); [|discriminate].
    intros H. injection H as <-. split; reflexivity.
  - destruct (str_to_float B s); discriminate.
Qed.

Lemma format_wow_known metric_name current previous :
  dict_mem metric_name METRIC_SPECS = true ->
  exists text, format_wow metric_name current previous = Ok text.
Proof.
  unfold dict_mem, format_wow. intros Hknown.
  destruct current as [c|], previous as [p|]; eauto.
  destruct (dict_get metric_name METRIC_SPECS) as [[|]|]; [|eauto|discriminate].
  destruct (p =? 0)%float; eauto.
Qed.

Lemma format_wow_missing metric_name current previous :
  current = None \/ previous = None ->
  format_wow metric_name current previous = Ok "N/A"%string.
Proof.
  intros [-> | ->]; [reflexivity|]. destruct current; reflexivity.
Qed.

End WowMap.

(** X17.  [build_wow_map] gives exactly one text for each of the four
    metrics of [METRIC_SPECS], in their order.  The only error it lets
    through is the [OverflowError] of [float] on an integer of the
    previous metrics; the other conversion errors count as no previous
    value.  On a first run, with no previous metrics, every text is
    "N/A", and metrics that an earlier run saved never make it fail. *)
Theorem build_wow_map_outcomes :
  forall B current previous,
    match build_wow_map B current previous with
    | Ok wow_map => dict_keys wow_map = dict_keys METRIC_SPECS
    | Raise e => e = OverflowError /\ isinstance_dict previous = true
    end
    /\ build_wow_map B current VNone
       = Ok (map (fun metric_name => (metric_name, "N/A"%string)) (dict_keys METRIC_SPECS))
    /\ forall saved,
        exists wow_map, build_wow_map B current (metrics_value saved) = Ok wow_map.
Proof.
  intros B current previous. split; [|split].
  - unfold build_wow_map. cbn [dict_keys METRIC_SPECS map fst wow_loop].
    destruct (previous_value B previous "total_supply_usd") as [p1|e] eqn:P1;
      [|exact (previous_value_raises _ _ _ _ P1)].
    destruct (format_wow_known "total_supply_usd"
                (metric_get current "total_supply_usd") p1 eq_refl) as [t1 F1].
    cbn [bind]. rewrite F1. cbn [bind].
    destruct (previous_value B previous "usdc_supply_usd") as [p2|e] eqn:P2;
      [|exact (previous_value_raises _ _ _ _ P2)].
    destruct (format_wow_known "usdc_supply_usd"
                (metric_get current "usdc_supply_usd") p2 eq_refl) as [t2 F2].
    cbn [bind]. rewrite F2. cbn [bind].
    destruct (previous_value B previous "usdc_supply_share") as [p3|e] eqn:P3;
      [|exact (previous_value_raises _ _ _ _ P3)].
    destruct (format_wow_known "usdc_supply_share"
                (metric_get current "usdc_supply_share") p3 eq_refl) as [t3 F3].
    cbn [bind]. rewrite F3. cbn [bind].
    destruct (previous_value B previous "usdc_transfer_volume_share_7d") as [p4|e] eqn:P4;
      [|exact (previous_value_raises _ _ _ _ P4)].
    destruct (format_wow_known "usdc_transfer_volume_share_7d"
                (metric_get current "usdc_transfer_volume_share_7d") p4 eq_refl)
      as [t4 F4].
    cbn [bind]. rewrite F4. reflexivity.
  - unfold build_wow_map. cbn [dict_keys METRIC_SPECS map fst wow_loop previous_value bind].
    rewrite !format_wow_missing by (right; reflexivity). reflexivity.
  - intros saved. unfold build_wow_map.
    cbn [dict_keys METRIC_SPECS map fst wow_loop].
    rewrite !previous_value_of_saved. cbn [bind].
    destruct (format_wow_known "total_supply_usd"
                (metric_get current "total_supply_usd")
                (metric_get saved "total_supply_usd") eq_refl) as [t1 ->].
    destruct (format_wow_known "usdc_supply_usd"
                (metric_get current "usdc_supply_usd")
                (metric_get saved "usdc_supply_usd") eq_refl) as [t2 ->].
    destruct (format_wow_known "usdc_supply_share"
                (metric_get current "usdc_supply_share")
                (metric_get saved "usdc_supply_share") eq_refl) as [t3 ->].
    destruct (format_wow_known "usdc_transfer_volume_share_7d"
                (metric_get current "usdc_transfer_volume_share_7d")
                (metric_get saved "usdc_transfer_volume_share_7d") eq_refl) as [t4 ->].
    cbn [bind]. eexists. reflexivity.
Qed.

(** ** Columns of a row *)

Section RowColumns.

Lemma find_app_of {A : Type} (f : A -> bool) l l' :
  find f (l ++ l') = match find f l with Some x => Some x | None => find f l' end.
Proof.
  induction l as [|x l IH]; [reflexivity|].
  cbn. destruct (f x); [reflexivity|exact IH].
Qed.

Lemma lowered_fold_get column items acc :
  dict_get column
    (fold_left (fun acc kv => dict_set (lower (fst kv)) (snd kv) acc) items acc)
  = match last_column column items with
    | Some v => Some v
    | None => dict_get column acc
    end.
Proof.
  unfold last_column. revert acc.
  induction items as [|[k v] items IH]; intros acc; [reflexivity|].
  cbn [fold_left rev fst snd]. rewrite IH, find_app_of.
  destruct (find _ (rev items)) as [kv|]; [reflexivity|].
  cbn [find fst snd option_map].
  destruct (String.eqb column (lower k)) eqn:E.
  - apply String.eqb_eq in E. subst column. cbn. apply dict_get_set_same.
  - apply String.eqb_neq in E. cbn. apply dict_get_set_other, E.
Qed.

Lemma lowered_row_get column items :
  dict_get column (lowered_row items) = last_column column items.
Proof.
  unfold lowered_row. rewrite lowered_fold_get.
  destruct (last_column column items); reflexivity.
Qed.

End RowColumns.

(** X18.  [get_row_value] compares column names without regard to case
    and takes the first candidate, in the order of the candidates, that
    names a column of the row, whatever the value there (a null value is
    returned, later candidates are not tried); when several columns of the
    row have that name up to case, the value of the last one.  No
    candidate in the row gives [None]; a row that is no mapping raises
    [AttributeError]. *)
Theorem get_row_value_first_candidate :
  forall row candidates,
    match row with
    | VDict items =>
        get_row_value row candidates
        = Ok match find (fun candidate =>
                           existsb (fun kv => String.eqb candidate (lower (fst kv))) items)
                     candidates with
             | Some candidate =>
                 match last_column candidate items with
                 | Some value => value
                 | None => VNone
                 end
             | None => VNone
             end
    | _ => get_row_value row candidates = Raise AttributeError
    end.
Proof.
  intros row candidates. destruct row as [| | | | | |items]; try reflexivity.
  unfold get_row_value. f_equal.
  induction candidates as [|candidate others IH]; [reflexivity|].
  cbn [first_candidate find]. rewrite lowered_row_get.
  assert (Hpresent :
            existsb (fun kv => String.eqb candidate (lower (fst kv))) items
            = match last_column candidate items with Some _ => true | None => false end).
  { unfold last_column.
    destruct (find _ (rev items)) as [kv|] eqn:E; cbn [option_map].
    - apply find_some in E. destruct E as [Hin Heq].
      apply existsb_exists. exists kv. split; [apply in_rev, Hin|exact Heq].
    - apply Bool.not_true_is_false. intros H. apply existsb_exists in H.
      destruct H as (kv & Hin & Heq).
      apply in_rev in Hin. pose proof (find_none _ _ E kv Hin) as Hnone.
      cbv beta in Hnone. rewrite Heq in Hnone. discriminate. }
  rewrite Hpresent.
  destruct (last_column candidate items) eqn:E; [rewrite E; reflexivity|exact IH].
Qed.

(** ** The schedule *)

(** X21.  A run that is not forced goes ahead only on a Monday at 07:00,
    and the window it then reports on is the whole week before: it
    starts on a Monday and ends on the Sunday that is the day before the
    run.  Whenever a window is returned it is the seven days that end
    the day before the run; with FORCE_RUN set to 1 a run goes ahead at
    any time. *)
Theorem scheduled_window_is_previous_week :
  (forall report_now,
      should_run_now report_now false = true ->
      (8 <= toordinal report_now)%Z ->
      hour report_now = 7%Z /\ minute report_now = 0%Z
      /\ weekday (toordinal report_now) = 0%Z
      /\ exists start_date end_date,
          get_report_window report_now = Ok (start_date, end_date)
          /\ weekday start_date = 0%Z /\ weekday end_date = 6%Z)
  /\ (forall report_now start_date end_date,
         get_report_window report_now = Ok (start_date, end_date) ->
         end_date = (toordinal report_now - 1)%Z
         /\ (end_date - start_date + 1 = 7)%Z
         /\ (1 <= start_date)%Z)
  /\ (forall w report_now,
         strip (getenv w "FORCE_RUN") = "1"%string ->
         should_run_now report_now (is_force_run_enabled w) = true).
Proof.
  split; [|split].
  - intros report_now Hrun Hdate. unfold should_run_now in Hrun.
    apply andb_true_iff in Hrun. destruct Hrun as [Hrun Hminute].
    apply andb_true_iff in Hrun. destruct Hrun as [Hday Hhour].
    apply Z.eqb_eq in Hday, Hhour, Hminute.
    unfold RUN_WEEKDAY in Hday. unfold RUN_HOUR in Hhour. unfold RUN_MINUTE in Hminute.
    split; [exact Hhour|]. split; [exact Hminute|]. split; [exact Hday|].
    unfold get_report_window, date_minus_days.
    destruct (toordinal report_now - 1 <? 1)%Z eqn:E1; [apply Z.ltb_lt in E1; lia|].
    cbn [bind].
    destruct (toordinal report_now - 1 - 6 <? 1)%Z eqn:E2; [apply Z.ltb_lt in E2; lia|].
    cbn [bind]. eexists _, _. split; [reflexivity|].
    unfold weekday in *.
    pose proof (Z.mod_pos_bound (toordinal report_now + 6) 7 ltac:(lia)).
    split.
    + replace (toordinal report_now - 1 - 6 + 6)%Z
        with (toordinal report_now + 6 + (-1) * 7)%Z by lia.
      rewrite Z.mod_add by lia. exact Hday.
    + pose proof (Z.div_mod (toordinal report_now + 6) 7 ltac:(lia)) as Hdm.
      rewrite Hday in Hdm.
      replace (toordinal report_now - 1 + 6)%Z
        with (6 + ((toordinal report_now + 6) / 7 - 1) * 7)%Z by lia.
      rewrite Z.mod_add by lia. reflexivity.
  - intros report_now start_date end_date. unfold get_report_window, date_minus_days.
    destruct (toordinal report_now - 1 <? 1)%Z eqn:E1; [discriminate|]. cbn [bind].
    destruct (toordinal report_now - 1 - 6 <? 1)%Z eqn:E2; [discriminate|]. cbn [bind].
    intros H. injection H as <- <-. apply Z.ltb_ge in E2. lia.
  - intros w report_now Hforce. unfold is_force_run_enabled, env_value.
    rewrite Hforce. reflexivity.
Qed.

Lemma scheduled_window_is_previous_week_witness :
  get_report_window {| toordinal := 739922; hour := 7; minute := 0 |}
  = Ok (739915%Z, 739921%Z)
  /\ weekday 739915 = 0%Z /\ weekday 739921 = 6%Z.
Proof.
  destruct (proj1 scheduled_window_is_previous_week
              {| toordinal := 739922; hour := 7; minute := 0 |} eq_refl)
    as (_ & _ & _ & start_date & end_date & Hwindow & Hstart & Hend).
  - cbn [toordinal]. lia.
  - rewrite Hwindow. vm_compute in Hwindow. injection Hwindow as <- <-.
    split; [reflexivity|]. split; assumption.
Defined.

